(** * oscope-scpi: the MSO-X 3000 and UXR drivers

    A shallow embedding of [oscope_scpi/MSOX3000.py] and [oscope_scpi/uxr.py].

    - [Py] holds the Python builtins the two drivers rely on: [int()] and
      [float()] on text, [int()] on a float, list indexing, slicing, [range].
      A Python [float] is an IEEE-754 binary64 number, modelled with the
      specification floats of the standard library ([spec_float], precision 53,
      [emax] 1024).  A character is a code point below 256.
    - [Keysight] is the shared base class.  Its source file is not part of the
      two modules embedded here; the drivers reach it through the interface
      [Keysight.Base].
    - [MSOX3000] and [UXR] embed the methods of the two driver classes. *)

From Stdlib Require Import ZArith List String Ascii Bool Lia.
From Stdlib Require Import Numbers.DecimalString.
From Stdlib Require Import Floats.SpecFloat.
Import ListNotations.

Set Implicit Arguments.

(** ** Exceptions and results *)

(** The exceptions that the embedded code can raise.  [ValueError] carries the
    message for the ones the drivers raise themselves; for the builtins the
    message is the fixed part of the interpreter's text. *)
Inductive exn : Type :=
| ValueError (msg : string)
| IndexError
| OverflowError
| KeyError.

Inductive result (A : Type) : Type :=
| Ok (a : A)
| Raise (e : exn).

Arguments Ok {A} a.
Arguments Raise {A} e.

Definition bind {A B : Type} (r : result A) (k : A -> result B) : result B :=
  match r with
  | Ok a => k a
  | Raise e => Raise e
  end.

Declare Scope result_scope.
Delimit Scope result_scope with result.
Notation "x <- r ;; k" := (bind r (fun x => k))
  (at level 61, r at next level, right associativity) : result_scope.

Definition is_ValueError (e : exn) : bool :=
  match e with ValueError _ => true | _ => false end.

Definition is_IndexError (e : exn) : bool :=
  match e with IndexError => true | _ => false end.

Definition is_OverflowError (e : exn) : bool :=
  match e with OverflowError => true | _ => false end.

(** ** Python builtins *)

Module Py.

Open Scope Z_scope.

(** A Python [float]. *)
Definition float : Type := spec_float.

Definition prec : Z := 53.
Definition emax : Z := 1024.

Definition code (c : ascii) : N := N_of_ascii c.

(** The characters [int()] and [float()] skip around a number, among the
    code points below 256: tab to carriage return and the space, and the two
    Unicode spaces U+0085 and U+00A0, which are turned into a space before
    the number is read. *)
Definition isspace (c : ascii) : bool :=
  let n := code c in
  ((9 <=? n) && (n <=? 13) || (n =? 32) || (n =? 133) || (n =? 160))%N.

Definition isdigit (c : ascii) : bool :=
  let n := code c in ((48 <=? n) && (n <=? 57))%N.

Definition digit_value (c : ascii) : Z := Z.of_N (code c) - 48.

Definition is_char (a c : ascii) : bool := Ascii.eqb a c.

(** ASCII lower-casing, for the case-insensitive words of [float()]. *)
Definition lower (c : ascii) : ascii :=
  let n := code c in
  if ((65 <=? n) && (n <=? 90))%N then ascii_of_N (n + 32) else c.

Fixpoint lstrip (cs : list ascii) : list ascii :=
  match cs with
  | c :: r => if isspace c then lstrip r else cs
  | [] => []
  end.

Definition rstrip (cs : list ascii) : list ascii := rev (lstrip (rev cs)).

Definition strip (cs : list ascii) : list ascii := rstrip (lstrip cs).

(** The longest prefix of decimal digits, and what follows it. *)
Fixpoint span_digits (cs : list ascii) : list ascii * list ascii :=
  match cs with
  | c :: r =>
      if isdigit c then let (ds, rest) := span_digits r in (c :: ds, rest)
      else ([], cs)
  | [] => ([], [])
  end.

(** The number a digit string denotes, most significant digit first. *)
Definition digits_value (ds : list ascii) : Z :=
  fold_left (fun acc c => 10 * acc + digit_value c) ds 0.

(** *** [int(s)] for a string [s], base ten *)

(** The digit scan of the integer parser: digits with single underscores
    between them.  It stops at the first other character; an underscore that
    follows an underscore, or that ends the scan, is an error. *)
Fixpoint long_digits (prev_underscore : bool) (acc : Z) (cs : list ascii)
  : option (Z * list ascii) :=
  match cs with
  | c :: r =>
      if isdigit c then long_digits false (10 * acc + digit_value c) r
      else if is_char "_" c then
        if prev_underscore then None else long_digits true acc r
      else if prev_underscore then None else Some (acc, cs)
  | [] => if prev_underscore then None else Some (acc, [])
  end.

Definition take_sign (cs : list ascii) : bool * list ascii :=
  match cs with
  | c :: r =>
      if is_char "+" c then (false, r)
      else if is_char "-" c then (true, r)
      else (false, cs)
  | [] => (false, [])
  end.

Definition int_of_chars (cs : list ascii) : option Z :=
  let (neg, body) := take_sign (lstrip cs) in
  match body with
  | c :: _ =>
      if isdigit c then
        match long_digits false 0 body with
        | Some (n, rest) =>
            match lstrip rest with
            | [] => Some (if neg then - n else n)
            | _ :: _ => None
            end
        | None => None
        end
      else None
  | [] => None
  end.

Definition int_of_str (s : string) : result Z :=
  match int_of_chars (list_ascii_of_string s) with
  | Some n => Ok n
  | None => Raise (ValueError "invalid literal for int() with base 10")
  end.

(** *** [float(s)] for a string [s] *)

(** Underscores are accepted between two digits only; they are dropped before
    the number is read. *)
Fixpoint drop_underscores (prev : ascii) (cs : list ascii)
  : option (list ascii) :=
  match cs with
  | c :: r =>
      if is_char "_" c then
        if isdigit prev then drop_underscores c r else None
      else if is_char "_" prev && negb (isdigit c) then None
      else option_map (cons c) (drop_underscores c r)
  | [] => if is_char "_" prev then None else Some []
  end.

(** The binary64 number nearest to [m * 10 ^ e], ties to even, for [m >= 0];
    [neg] is the sign. *)
Definition float_of_decimal (neg : bool) (m e : Z) : float :=
  match m with
  | Zpos p =>
      if 0 <=? e then binary_round prec emax neg (Pos.mul p (Z.to_pos (10 ^ e))) 0
      else
        let '(q, e', l) := SFdiv_core_binary prec emax (Zpos p) 0 (10 ^ (- e)) 0 in
        binary_round_aux prec emax neg q e' l
  | _ => S754_zero neg
  end.

(** The exponent part: [e] or [E], an optional sign, at least one digit.  When
    the digits are missing the exponent is not part of the number, and the
    text is left where it was. *)
Definition take_exponent (cs : list ascii) : Z * list ascii :=
  match cs with
  | c :: r =>
      if is_char "e" (lower c) then
        let (eneg, r1) := take_sign r in
        match span_digits r1 with
        | ([], _) => (0, cs)
        | (ds, rest) =>
            ((if eneg then - digits_value ds else digits_value ds), rest)
        end
      else (0, cs)
  | [] => (0, [])
  end.

Definition parse_inf_or_nan (neg : bool) (body : list ascii) : option float :=
  let w := string_of_list_ascii (map lower body) in
  if String.eqb w "inf" || String.eqb w "infinity" then Some (S754_infinity neg)
  else if String.eqb w "nan" then Some S754_nan
  else None.

Definition parse_double (cs : list ascii) : option float :=
  let (neg, body) := take_sign cs in
  let (ip, r1) := span_digits body in
  let (fp, r2) :=
    match r1 with
    | c :: r => if is_char "." c then span_digits r else ([], r1)
    | [] => ([], [])
    end in
  match ip ++ fp with
  | [] => parse_inf_or_nan neg body
  | ds =>
      match take_exponent r2 with
      | (ex, []) =>
          Some (float_of_decimal neg (digits_value ds)
                  (ex - Z.of_nat (List.length fp)))
      | (_, _ :: _) => None
      end
  end.

Definition float_of_chars (cs : list ascii) : option float :=
  match drop_underscores "000" cs with
  | Some t => parse_double (strip t)
  | None => None
  end.

Definition float_of_str (s : string) : result float :=
  match float_of_chars (list_ascii_of_string s) with
  | Some x => Ok x
  | None => Raise (ValueError "could not convert string to float")
  end.

(** *** [int(x)] for a float [x]: truncation towards zero *)

Definition int_of_float (x : float) : result Z :=
  match x with
  | S754_zero _ => Ok 0
  | S754_finite s m e =>
      let a := Z.shiftl (Zpos m) e in Ok (if s then - a else a)
  | S754_infinity _ =>
      Raise OverflowError
  | S754_nan => Raise (ValueError "cannot convert float NaN to integer")
  end.

(** [x >= y] on floats: false as soon as one side is NaN. *)
Definition float_ge (x y : float) : bool := SFleb y x.

(** *** Lists *)

(** [l[i]] for an index [i >= 0]. *)
Definition getitem {A : Type} (l : list A) (i : nat) : result A :=
  match nth_error l i with
  | Some x => Ok x
  | None => Raise IndexError
  end.

(** [l[i:j]] for [0 <= i <= j]; both ends are clipped to the list. *)
Definition slice {A : Type} (l : list A) (i j : nat) : list A :=
  firstn (j - i) (skipn i l).

(** [range(start, stop, step)] for a positive [step]. *)
Definition range (start stop step : nat) : list nat :=
  map (fun k => start + k * step)%nat
      (seq 0 ((stop - start + (step - 1)) / step)).

(** [s[1:]] on a string. *)
Definition str_tail (s : string) : string :=
  match s with
  | String _ r => r
  | EmptyString => EmptyString
  end.

(** [str(n)] for an integer. *)
Definition str_of_int (n : Z) : string := NilZero.string_of_int (Z.to_int n).

(** [if s:] for [s] that is [None] or a string: [None] and the empty string
    are false. *)
Definition truthy (s : option string) : bool :=
  match s with
  | Some (String _ _) => true
  | _ => false
  end.

(** The string made of one double quote. *)
Definition dquote : string := String (ascii_of_nat 34) EmptyString.

End Py.

(** ** The shared base class *)

Module Keysight.

Open Scope string_scope.

(** A channel identifier is a string or a small integer; [None] stands for
    "no channel given". *)
Inductive atom : Type :=
| ANone
| AStr (s : string)
| AInt (n : Z).

(** What a [channel] argument or attribute holds: one value, or a list. *)
Inductive pyobj : Type :=
| Atom (a : atom)
| PyList (l : list atom).

Definition atom_eq_dec (a b : atom) : {a = b} + {a <> b}.
Proof. decide equality; [apply string_dec | apply Z.eq_dec]. Defined.

(** [a == b] on identifiers. *)
Definition atom_eqb (a b : atom) : bool :=
  if atom_eq_dec a b then true else false.

(** [chan in l]. *)
Definition contains (l : list atom) (chan : atom) : bool :=
  existsb (atom_eqb chan) l.

(** [str(chan)], as ['{}'.format(chan)] prints it. *)
Definition str_of_atom (a : atom) : string :=
  match a with
  | ANone => "None"
  | AStr s => s
  | AInt n => Py.str_of_int n
  end.

(** The driver object: the attributes the two drivers read and assign, and the
    commands sent over the session so far, oldest first. *)
Record t : Type := mk {
  channel : pyobj;
  chanAllValidList : list atom;
  written : list string
}.

Definition set_channel (c : pyobj) (self : t) : t :=
  mk c (chanAllValidList self) (written self).

(** A method: it runs on the object, returns or raises, and leaves the object
    in a new state. *)
Definition M (A : Type) : Type := t -> result A * t.

Definition ret {A : Type} (a : A) : M A := fun self => (Ok a, self).

Definition raise {A : Type} (e : exn) : M A := fun self => (Raise e, self).

Definition bindM {A B : Type} (m : M A) (k : A -> M B) : M B :=
  fun self =>
    match m self with
    | (Ok a, self') => k a self'
    | (Raise e, self') => (Raise e, self')
    end.

(** A computation on values only, run inside a method. *)
Definition lift {A : Type} (r : result A) : M A := fun self => (r, self).

(** Modelled from the spec: [_instWrite] is the base driver's raw SCPI write
    ("issues raw SCPI writes/queries").  It sends one command string over the
    session; the session is taken to accept it. *)
Definition _instWrite (cmd : string) : M unit :=
  fun self =>
    (Ok tt, mk (channel self) (chanAllValidList self) (written self ++ [cmd])).

(** The rest of the base class, as the drivers use it:
    - [OverRange], the overflow threshold (a class attribute);
    - [channelStr], the channel-string formatting helper;
    - [measureTblUnits], the unit lookup by measure name, [KeyError] when the
      name is [None] or has no entry;
    - [_measureStatistics], which returns the flat statistics reply;
    - [setupAutoscale], the shared autoscale implementation. *)
Class Base : Type := {
  OverRange : Py.float;
  channelStr : t -> atom -> string;
  measureTblUnits : t -> option string -> result string;
  _measureStatistics : M (list string);
  setupAutoscale : pyobj -> M unit
}.

(** One entry of the statistics table: the dictionary built for each row. *)
Record stat : Type := mkstat {
  label : string;
  CURR : Py.float;
  MIN : Py.float;
  MAX : Py.float;
  MEAN : Py.float;
  STDD : Py.float;
  COUN : Z
}.

(** [for x in l: stats.append(body(x))]: the first exception ends the loop. *)
Fixpoint for_append {A B : Type} (body : A -> result B) (l : list A)
    (stats : list B) : result (list B) :=
  match l with
  | [] => Ok stats
  | x :: r => bind (body x) (fun d => for_append body r (stats ++ [d]))
  end.

(** What [Quantity(value, units)] and [Quantity(value)] of the quantiphy
    package are built from. *)
Record Quantity : Type := mkQuantity {
  real : Py.float;
  units : option string
}.

(** The value [polish] returns: a display string or a quantity. *)
Inductive polished : Type :=
| PStr (s : string)
| PQuantity (q : Quantity).

End Keysight.

Declare Scope method_scope.
Delimit Scope method_scope with method.
Notation "x <- m ;; k" := (Keysight.bindM m (fun x => k))
  (at level 61, m at next level, right associativity) : method_scope.
Notation "m ;; k" := (Keysight.bindM m (fun _ => k))
  (at level 61, right associativity) : method_scope.

(** ** MSO-X / DSO-X 3000A *)

Module MSOX3000.

Import Keysight.
Open Scope string_scope.

Definition maxChannel : Z := 4.

Section Driver.

Context {base : Base}.

(** The loop of [setupAutoscaleOLD] over [chanlist], from the value [chanstr]
    has on entry. *)
Fixpoint autoscale_chanstr (self : t) (chanlist : list atom) (chanstr : string)
  : result string :=
  match chanlist with
  | [] => Ok chanstr
  | chan :: rest =>
      if negb (contains (chanAllValidList self) chan) then
        Raise (ValueError ("INVALID Channel Value for AUTOSCALE: "
                             ++ str_of_atom chan ++ "  SKIPPING!"))
      else autoscale_chanstr self rest (chanstr ++ "," ++ channelStr self chan)
  end.

Definition setupAutoscaleOLD (channel : pyobj) : M unit :=
  fun self =>
    (* If a channel value is passed in, make it the current channel *)
    let self :=
      match channel with
      | Atom ANone => self
      | _ => set_channel channel self
      end in
    (* Make channel a list even if it is a single value *)
    let chanlist :=
      match Keysight.channel self with
      | PyList l => l
      | Atom a => [a]
      end in
    (* chanlist cannot have more than 5 elements *)
    if (5 <? List.length chanlist)%nat then
      raise (ValueError "Too many channels for AUTOSCALE! Max is 5. Aborting")
            self
    else
      (x <- lift (autoscale_chanstr self chanlist "") ;;
       _instWrite ("AUToscale " ++ Py.str_tail x))%method self.

Definition polishOLD (value : Py.float) (measure : option string)
  : M polished :=
  fun self =>
    if Py.float_ge value OverRange then (Ok (PStr "------"), self)
    else
      match measureTblUnits self measure with
      | Ok u => (Ok (PQuantity (mkQuantity value (Some u))), self)
      | Raise KeyError => (Ok (PQuantity (mkQuantity value None)), self)
      | Raise e => (Raise e, self)
      end.

(** The dictionary built from one row of the statistics matrix. *)
Definition stat_dict (stat : list string) : result Keysight.stat :=
  (l <- Py.getitem stat 0 ;;
   s1 <- Py.getitem stat 1 ;; curr <- Py.float_of_str s1 ;;
   s2 <- Py.getitem stat 2 ;; min <- Py.float_of_str s2 ;;
   s3 <- Py.getitem stat 3 ;; max <- Py.float_of_str s3 ;;
   s4 <- Py.getitem stat 4 ;; mean <- Py.float_of_str s4 ;;
   s5 <- Py.getitem stat 5 ;; stdd <- Py.float_of_str s5 ;;
   s6 <- Py.getitem stat 6 ;; coun <- Py.int_of_str s6 ;;
   Ok (mkstat l curr min max mean stdd coun))%result.

(** The part of [measureStatistics] that follows the reply. *)
Definition stats_of_reply (statFlat : list string)
  : result (list Keysight.stat) :=
  let statMat :=
    map (fun i => Py.slice statFlat i (i + 7))
        (Py.range 0 (List.length statFlat) 7) in
  for_append stat_dict statMat [].

Definition measureStatistics : M (list Keysight.stat) :=
  (_instWrite "SYSTem:MENU MEASure" ;;
   _instWrite "MEASure:STATistics:DISPlay ON" ;;
   statFlat <- _measureStatistics ;;
   lift (stats_of_reply statFlat))%method.

Definition annotateColorOLD (color : string) : M unit :=
  _instWrite ("DISPlay:ANN:COLor " ++ color).

Definition annotateOffOLD : M unit :=
  _instWrite "DISPlay:ANN OFF".

(** [annotateOLD] sets the colour through [self.annotateColor], a method of
    the base class. *)
Variable annotateColor : string -> M unit.

Definition annotateOLD (text : string) (color : option string)
    (background : string) : M unit :=
  ((match color with
    | Some c => if Py.truthy color then annotateColor c else ret tt
    | None => ret tt
    end) ;;
   (* Add an annotation to the screen *)
   _instWrite ("DISPlay:ANN:BACKground " ++ background) ;;
   _instWrite ("DISPlay:ANN:TEXT " ++ Py.dquote ++ text ++ Py.dquote) ;;
   _instWrite "DISPlay:ANN ON")%method.

End Driver.

End MSOX3000.

(** ** UXR series *)

Module UXR.

Import Keysight.
Open Scope string_scope.

(** The arguments [timeout] and [wait] are numbers. *)
Inductive number : Type :=
| NInt (n : Z)
| NFloat (x : Py.float).

Section Driver.

Context {base : Base}.

Definition stat_dict (stat : list string) : result Keysight.stat :=
  (l <- Py.getitem stat 0 ;;
   s1 <- Py.getitem stat 1 ;; curr <- Py.float_of_str s1 ;;
   s2 <- Py.getitem stat 2 ;; min <- Py.float_of_str s2 ;;
   s3 <- Py.getitem stat 3 ;; max <- Py.float_of_str s3 ;;
   s4 <- Py.getitem stat 4 ;; mean <- Py.float_of_str s4 ;;
   s5 <- Py.getitem stat 5 ;; stdd <- Py.float_of_str s5 ;;
   s6 <- Py.getitem stat 6 ;; x6 <- Py.float_of_str s6 ;;
   coun <- Py.int_of_float x6 ;;
   Ok (mkstat l curr min max mean stdd coun))%result.

Definition stats_of_reply (statFlat : list string)
  : result (list Keysight.stat) :=
  let statMat :=
    map (fun i => Py.slice statFlat i (i + 7))
        (Py.range 0 (List.length statFlat) 7) in
  for_append stat_dict statMat [].

Definition measureStatistics : M (list Keysight.stat) :=
  (statFlat <- _measureStatistics ;;
   lift (stats_of_reply statFlat))%method.

Definition measureDVMfreq (channel : pyobj) (timeout wait : number)
  : M Py.float :=
  ret OverRange.

Definition setupAutoscale (channel : pyobj) : M unit :=
  (_instWrite "AUToscale:PLACement SEParate" ;;
   Keysight.setupAutoscale channel)%method.

End Driver.

End UXR.

(** ** A bench instrument

    One instance of the base-class interface, on which the drivers can be
    evaluated. *)

Module Bench.

Import Keysight.
Open Scope string_scope.

(** The reading a Keysight instrument reports when a value is over range:
    9.9E+37, as a binary64 number. *)
Definition OverRange : Py.float := S754_finite false 5241016361135983 74.

Definition channelStr (self : t) (chan : atom) : string :=
  "CHAN" ++ str_of_atom chan.

Definition measureTbl : list (string * string) :=
  [("Frequency", "Hz"); ("Period", "s"); ("Pk-Pk", "V")].

(** Modelled from the spec: the unit lookup table of the base class.  A name
    that is [None] or has no entry raises [KeyError], which is the case
    [polishOLD] handles. *)
Definition measureTblUnits (self : t) (measure : option string)
  : result string :=
  match measure with
  | None => Raise KeyError
  | Some name =>
      match find (fun kv => String.eqb (fst kv) name) measureTbl with
      | Some kv => Ok (snd kv)
      | None => Raise KeyError
      end
  end.

(** The instrument answers the statistics query with [reply]; the base method
    adds nothing to the log here, so the log shows the driver's own writes. *)
Definition _measureStatistics (reply : list string) : M (list string) :=
  ret reply.

Definition base0 (reply : list string) : Base :=
  Build_Base OverRange channelStr measureTblUnits (_measureStatistics reply)
             (fun _ => ret tt).

(** The shared autoscale is taken to be the copy MSOX3000 keeps. *)
Definition base (reply : list string) : Base :=
  Build_Base OverRange channelStr measureTblUnits (_measureStatistics reply)
             (MSOX3000.setupAutoscaleOLD (base := base0 reply)).

(** A four-channel scope with channel "1" selected and nothing sent yet. *)
Definition scope : t :=
  mk (Atom (AStr "1")) [AStr "1"; AStr "2"; AStr "3"; AStr "4"] [].

Definition vavg_reply : list string :=
  ["Vavg"; "1.0"; "0.5"; "1.5"; "1.0"; "0.01"; "100"].

(** The floats 1.0, 0.5, 1.5 and 0.01 (the last one is 0x3F847AE147AE147B). *)
Definition f1_0 : Py.float := S754_finite false 4503599627370496 (-52).
Definition f0_5 : Py.float := S754_finite false 4503599627370496 (-53).
Definition f1_5 : Py.float := S754_finite false 6755399441055744 (-52).
Definition f0_01 : Py.float := S754_finite false 5764607523034235 (-59).

Definition vavg_record : stat :=
  mkstat "Vavg" f1_0 f0_5 f1_5 f1_0 f0_01 100.

(** A reply cut short after the third field. *)
Definition short_reply : list string := ["Vavg"; "1.0"; "0.5"].

(** One group whose count is written as a float, and one whose count is
    [2 ^ 53 + 1]. *)
Definition float_count_reply : list string :=
  ["Vavg"; "1.0"; "0.5"; "1.5"; "1.0"; "0.01"; "100.0"].

Definition big_count_reply : list string :=
  ["Vavg"; "1.0"; "0.5"; "1.5"; "1.0"; "0.01"; "9007199254740993"].

Definition six : list atom :=
  [AStr "1"; AStr "2"; AStr "3"; AStr "4"; AStr "1"; AStr "2"].



Definition bad_second_reply : list string :=
  vavg_reply ++ ["Vpp"; "1.5"; "1.0"; "1.5"; "1.5"; "0.5"; "7.0"]
             ++ ["Vrms"].

End Bench.

(** ** Vocabulary of the statements *)

Module Spec.

Import Keysight.
Open Scope string_scope.

(** The object once the two commands that show the statistics window have
    been written. *)
Definition shown (self : t) : t :=
  mk (channel self) (chanAllValidList self)
     (written self
        ++ ["SYSTem:MENU MEASure"; "MEASure:STATistics:DISPlay ON"]).




Section Autoscale.

Context {base : Base}.

(** The text the loop of [setupAutoscaleOLD] appends for a list of channels:
    each name with a comma in front. *)
Definition prefixed (self : t) (chans : list atom) : string :=
  fold_right (fun chan acc => "," ++ channelStr self chan ++ acc) "" chans.

Definition all_valid (self : t) (chans : list atom) : Prop :=
  Forall (fun chan => contains (chanAllValidList self) chan = true) chans.

Definition some_invalid (self : t) (chans : list atom) : Prop :=
  Exists (fun chan => contains (chanAllValidList self) chan = false) chans.

End Autoscale.

(** [statMat]: the reply cut into rows of seven fields. *)
Definition rows (statFlat : list string) : list (list string) :=
  map (fun i => Py.slice statFlat i (i + 7))
      (Py.range 0 (List.length statFlat) 7).

(** The loop over the rows, with [body] building the dictionary of a row. *)
Definition convert (body : list string -> result stat)
    (statFlat : list string) : result (list stat) :=
  for_append body (rows statFlat) [].

(** How each driver reads the count field. *)
Definition MSOX_count (s : string) : result Z := Py.int_of_str s.

Definition UXR_count (s : string) : result Z :=
  bind (Py.float_of_str s) Py.int_of_float.

(** The two drivers build the dictionary of a row in the same way, up to the
    reading of the count. *)
Definition dict (count : string -> result Z) (stat : list string)
  : result Keysight.stat :=
  (l <- Py.getitem stat 0 ;;
   s1 <- Py.getitem stat 1 ;; curr <- Py.float_of_str s1 ;;
   s2 <- Py.getitem stat 2 ;; min <- Py.float_of_str s2 ;;
   s3 <- Py.getitem stat 3 ;; max <- Py.float_of_str s3 ;;
   s4 <- Py.getitem stat 4 ;; mean <- Py.float_of_str s4 ;;
   s5 <- Py.getitem stat 5 ;; stdd <- Py.float_of_str s5 ;;
   s6 <- Py.getitem stat 6 ;; coun <- count s6 ;;
   Ok (mkstat l curr min max mean stdd coun))%result.

(** [row_of count raw rec]: [raw] is a group of seven fields, and [rec] is
    its record: the label as it stands, the next five fields read as floats,
    the last one read as an integer by [count]. *)
Definition row_of (count : string -> result Z) (raw : list string)
    (rec : stat) : Prop :=
  exists c mn mx me sd n,
    raw = [label rec; c; mn; mx; me; sd; n]
    /\ Py.float_of_str c = Ok (CURR rec)
    /\ Py.float_of_str mn = Ok (MIN rec)
    /\ Py.float_of_str mx = Ok (MAX rec)
    /\ Py.float_of_str me = Ok (MEAN rec)
    /\ Py.float_of_str sd = Ok (STDD rec)
    /\ count n = Ok (COUN rec).

(** The failures of a conversion to a number: a value error or, for the
    integer part of an infinite float, an overflow. *)
Definition parse_failure (e : exn) : bool :=
  is_ValueError e || is_OverflowError e.

(** The characters that can occur in a text [int()] accepts: spaces, digits,
    the underscore and the two signs. *)
Definition int_char (c : ascii) : bool :=
  Py.isspace c || Py.isdigit c || Py.is_char "_" c || Py.is_char "+" c
  || Py.is_char "-" c.

Definition int_text (cs : list ascii) : Prop :=
  Forall (fun c => int_char c = true) cs.

(** Two records that agree on everything but the count. *)
Definition same_but_count (r1 r2 : stat) : Prop :=
  label r1 = label r2 /\ CURR r1 = CURR r2 /\ MIN r1 = MIN r2
  /\ MAX r1 = MAX r2 /\ MEAN r1 = MEAN r2 /\ STDD r1 = STDD r2.







(** The object once [cmds] have been written, in that order. *)
Definition wrote (cmds : list string) (self : t) : t :=
  mk (channel self) (chanAllValidList self) (written self ++ cmds).

(** The object on which the checks of [setupAutoscaleOLD] run: the channel
    is the argument, unless the argument is [None]. *)
Definition selected (arg : pyobj) (self : t) : t :=
  match arg with
  | Atom ANone => self
  | _ => set_channel arg self
  end.

(** The two messages of [setupAutoscaleOLD]. *)
Definition too_many_msg : string :=
  "Too many channels for AUTOSCALE! Max is 5. Aborting".

Definition invalid_msg (chan : atom) : string :=
  "INVALID Channel Value for AUTOSCALE: " ++ str_of_atom chan
    ++ "  SKIPPING!".

(** The three commands with which [annotateOLD] ends. *)
Definition annotation (text background : string) : list string :=
  ["DISPlay:ANN:BACKground " ++ background;
   "DISPlay:ANN:TEXT " ++ Py.dquote ++ text ++ Py.dquote;
   "DISPlay:ANN ON"].

End Spec.

(** * Properties *)

(** ** Text *)

Module StrFacts.

Open Scope string_scope.

Lemma append_assoc (a b c : string) : (a ++ b) ++ c = a ++ b ++ c.
Proof. induction a as [|ch a IH]; simpl; [reflexivity | now rewrite IH]. Qed.

Lemma append_empty_r (a : string) : a ++ "" = a.
Proof. induction a as [|ch a IH]; simpl; [reflexivity | now rewrite IH]. Qed.

End StrFacts.

(** ** Autoscale on the MSO-X 3000 *)

Module AutoscaleFacts.

Import Keysight Spec.
Open Scope string_scope.

Section WithBase.

Context {base : Base}.

Lemma chanstr_valid (self : t) (chans : list atom) :
  all_valid self chans ->
  forall acc,
    MSOX3000.autoscale_chanstr self chans acc = Ok (acc ++ prefixed self chans).
Proof.
  induction 1 as [|chan rest Hin _ IH]; intros acc; simpl.
  - now rewrite StrFacts.append_empty_r.
  - rewrite Hin; simpl. rewrite IH.
    now rewrite !StrFacts.append_assoc.
Qed.

Lemma chanstr_invalid (self : t) (chans : list atom) :
  some_invalid self chans ->
  forall acc, exists msg,
    MSOX3000.autoscale_chanstr self chans acc = Raise (ValueError msg).
Proof.
  intros Hex.
  induction chans as [|chan rest IH]; intros acc.
  - inversion Hex.
  - simpl. destruct (contains (chanAllValidList self) chan) eqn:Hin; simpl.
    + apply IH. inversion Hex; subst; [congruence | assumption].
    + eexists; reflexivity.
Qed.

(** Taking the first character off the accumulated text gives the channel
    names joined with commas. *)
Lemma tail_prefixed (self : t) (chans : list atom) :
  Py.str_tail (prefixed self chans)
  = String.concat "," (map (channelStr self) chans).
Proof.
  destruct chans as [|chan rest]; [reflexivity|].
  simpl. revert chan.
  induction rest as [|c2 rest IH]; intros chan; simpl.
  - apply StrFacts.append_empty_r.
  - f_equal. f_equal. apply (IH c2).
Qed.

End WithBase.

End AutoscaleFacts.

Section AutoscaleClaims.

Import Keysight Spec AutoscaleFacts.
Open Scope string_scope.

Context {base : Base}.

(** C2.  A channel list with more than five entries, or with an entry outside
    the allowed set, makes [setupAutoscaleOLD] raise [ValueError]; the object
    is left with the list as its channel and with the log of written commands
    as it was: nothing is sent. *)
Theorem setupAutoscaleOLD_rejects (self : t) (chans : list atom) :
  (5 < List.length chans)%nat \/ some_invalid self chans ->
  exists msg,
    MSOX3000.setupAutoscaleOLD (PyList chans) self
    = (Raise (ValueError msg), set_channel (PyList chans) self)
    /\ written (set_channel (PyList chans) self) = written self.
Proof.
  intros H. unfold MSOX3000.setupAutoscaleOLD. simpl.
  destruct (5 <? List.length chans)%nat eqn:Hlen.
  - eexists; split; reflexivity.
  - destruct H as [H | H].
    + apply Nat.ltb_ge in Hlen. lia.
    + destruct (chanstr_invalid (self := set_channel (PyList chans) self)
                  H "") as [msg Hmsg].
      exists msg. unfold bindM, lift. rewrite Hmsg. split; reflexivity.
Qed.

(** C3.  For a non-empty list of at most five channels, all in the allowed
    set, [setupAutoscaleOLD] returns normally and adds exactly one command to
    the log: ["AUToscale "] followed by the formatted names of the channels,
    in list order, joined by commas.  The names are formatted by the object
    as it is after the assignment of its channel. *)
Theorem setupAutoscaleOLD_command (self : t) (chans : list atom) :
  chans <> [] ->
  (List.length chans <= 5)%nat ->
  all_valid self chans ->
  let self1 := set_channel (PyList chans) self in
  MSOX3000.setupAutoscaleOLD (PyList chans) self
  = (Ok tt,
     mk (PyList chans) (chanAllValidList self)
        (written self
           ++ ["AUToscale "
                 ++ String.concat "," (map (channelStr self1) chans)])).
Proof.
  intros _ Hlen Hvalid self1. unfold MSOX3000.setupAutoscaleOLD. simpl.
  apply Nat.ltb_ge in Hlen. rewrite Hlen.
  unfold bindM, lift.
  rewrite (chanstr_valid (self := self1) Hvalid "").
  simpl. unfold _instWrite. simpl.
  rewrite <- tail_prefixed. reflexivity.
Qed.

(** C10.  When the argument is not [None], the object holds it as its channel
    once [setupAutoscaleOLD] is over, whether the call returned or raised: the
    assignment comes before the checks and is not undone by an error. *)
Theorem setupAutoscaleOLD_keeps_argument
    (self self' : t) (arg : pyobj) (r : result unit) :
  arg <> Atom ANone ->
  MSOX3000.setupAutoscaleOLD arg self = (r, self') ->
  channel self' = arg.
Proof.
  intros Hsome. unfold MSOX3000.setupAutoscaleOLD.
  set (self1 := match arg with Atom ANone => self | _ => set_channel arg self end).
  assert (Hch : channel self1 = arg).
  { subst self1. destruct arg as [[| |]|]; try reflexivity. congruence. }
  clearbody self1.
  destruct (5 <? _)%nat.
  - unfold raise. intros E; injection E as _ E; subst self'; exact Hch.
  - unfold bindM, lift.
    destruct (MSOX3000.autoscale_chanstr self1 _ "") as [x|e].
    + unfold _instWrite. intros E; injection E as _ E; subst self'; exact Hch.
    + intros E; injection E as _ E; subst self'; exact Hch.
Qed.

End AutoscaleClaims.

(** ** Methods of the UXR driver, and [polishOLD] *)

Section DriverClaims.

Import Keysight Spec.
Open Scope string_scope.

Context {base : Base}.

(** C4.  Whatever the channel, the timeout and the wait, [measureDVMfreq] of
    the UXR driver returns [OverRange] and leaves the object, and so the log
    of written commands, as it was. *)
Theorem measureDVMfreq_overrange
    (self : t) (channel : pyobj) (timeout wait : UXR.number) :
  UXR.measureDVMfreq channel timeout wait self = (Ok OverRange, self).
Proof. reflexivity. Qed.

(** C9.  [setupAutoscale] of the UXR driver runs the shared implementation on
    an object whose log has grown by exactly the placement command: that
    command is written first, and every command of the shared implementation
    comes after it. *)
Theorem UXR_setupAutoscale_placement_first (self : t) (channel : pyobj) :
  exists self1,
    written self1 = (written self ++ ["AUToscale:PLACement SEParate"])%list
    /\ Keysight.channel self1 = Keysight.channel self
    /\ chanAllValidList self1 = chanAllValidList self
    /\ UXR.setupAutoscale channel self = Keysight.setupAutoscale channel self1.
Proof.
  exists (mk (Keysight.channel self) (chanAllValidList self)
             (written self ++ ["AUToscale:PLACement SEParate"])).
  repeat split.
Qed.

(** C5, as the code has it.  [polishOLD] returns the display string ['------']
    exactly when the value is at or above [OverRange].  Below it, the result
    is a quantity with the unit of the measure when the unit lookup succeeds,
    and a quantity without a unit when the lookup raises [KeyError] (the
    measure is [None] or unknown). *)
Theorem polishOLD_cases
    (self : t) (value : Py.float) (measure : option string) :
  (MSOX3000.polishOLD value measure self = (Ok (PStr "------"), self)
   <-> Py.float_ge value OverRange = true)
  /\ (Py.float_ge value OverRange = false ->
      (forall u, measureTblUnits self measure = Ok u ->
         MSOX3000.polishOLD value measure self
         = (Ok (PQuantity (mkQuantity value (Some u))), self))
      /\ (measureTblUnits self measure = Raise KeyError ->
          MSOX3000.polishOLD value measure self
          = (Ok (PQuantity (mkQuantity value None)), self))).
Proof.
  unfold MSOX3000.polishOLD.
  destruct (Py.float_ge value OverRange) eqn:Hge.
  - split; [split; reflexivity | discriminate].
  - split.
    + split; [|discriminate].
      destruct (measureTblUnits self measure) as [u|[]]; discriminate.
    + intros _. split.
      * intros u Hu. now rewrite Hu.
      * intros Hk. now rewrite Hk.
Qed.

(** C7, as the code has it.  The MSO-X 3000 driver writes the two commands
    that show the statistics window and then asks the base method for the
    reply; the UXR driver asks the base method straight away, on the object as
    it was. *)
Theorem measureStatistics_preamble (self : t) :
  written (shown self)
  = (written self
       ++ ["SYSTem:MENU MEASure"; "MEASure:STATistics:DISPlay ON"])%list
  /\ MSOX3000.measureStatistics self
     = (let (r, self') := _measureStatistics (shown self) in
        (bind r MSOX3000.stats_of_reply, self'))
  /\ UXR.measureStatistics self
     = (let (r, self') := _measureStatistics self in
        (bind r UXR.stats_of_reply, self')).
Proof.
  split; [reflexivity | split].
  - unfold MSOX3000.measureStatistics, bindM, _instWrite, lift, shown. simpl.
    rewrite <- app_assoc. simpl.
    destruct (_measureStatistics _) as [[reply|e] self']; reflexivity.
  - unfold UXR.measureStatistics, bindM, lift.
    destruct (_measureStatistics self) as [[reply|e] self']; reflexivity.
Qed.

End DriverClaims.

(** ** Evaluations on the bench instrument *)

Section BenchRuns.

Import Keysight Spec.
Open Scope string_scope.

Lemma setupAutoscaleOLD_rejects_witness :
  exists msg,
    MSOX3000.setupAutoscaleOLD (base := Bench.base []) (PyList Bench.six) Bench.scope
    = (Raise (ValueError msg), set_channel (PyList Bench.six) Bench.scope)
    /\ written (set_channel (PyList Bench.six) Bench.scope) = written Bench.scope.
Proof.
  apply (@setupAutoscaleOLD_rejects (Bench.base []) Bench.scope Bench.six).
  left. simpl. lia.
Defined.

Lemma setupAutoscaleOLD_command_witness :
  MSOX3000.setupAutoscaleOLD (base := Bench.base [])
    (PyList [AStr "1"; AStr "3"]) Bench.scope
  = (Ok tt,
     mk (PyList [AStr "1"; AStr "3"]) (chanAllValidList Bench.scope)
        ["AUToscale CHAN1,CHAN3"]).
Proof.
  apply (@setupAutoscaleOLD_command (Bench.base [])
           Bench.scope [AStr "1"; AStr "3"]).
  - discriminate.
  - simpl. lia.
  - repeat constructor.
Defined.

Lemma setupAutoscaleOLD_keeps_argument_witness :
  channel (snd (MSOX3000.setupAutoscaleOLD (base := Bench.base [])
                  (PyList Bench.six) Bench.scope))
  = PyList Bench.six.
Proof.
  apply (@setupAutoscaleOLD_keeps_argument (Bench.base [])
           Bench.scope _ (PyList Bench.six)
           (Raise (ValueError
                     "Too many channels for AUTOSCALE! Max is 5. Aborting"))).
  - discriminate.
  - reflexivity.
Defined.

Lemma polishOLD_cases_witness :
  MSOX3000.polishOLD (base := Bench.base [])
    (S754_finite false 4503599627370496 (-52)) (Some "Frequency") Bench.scope
  = (Ok (PQuantity (mkQuantity (S754_finite false 4503599627370496 (-52))
                      (Some "Hz"))), Bench.scope).
Proof.
  destruct (@polishOLD_cases (Bench.base []) Bench.scope
              (S754_finite false 4503599627370496 (-52)) (Some "Frequency"))
    as [_ Hbelow].
  destruct (Hbelow eq_refl) as [Hunit _].
  apply Hunit. reflexivity.
Defined.

(** C5 as stated fails: a value below the threshold, polished without a
    measure name, comes back as a quantity without any unit. *)
Lemma polishOLD_no_unit :
  Py.float_ge (S754_finite false 4503599627370496 (-52)) Bench.OverRange
  = false
  /\ MSOX3000.polishOLD (base := Bench.base [])
       (S754_finite false 4503599627370496 (-52)) None Bench.scope
     = (Ok (PQuantity (mkQuantity (S754_finite false 4503599627370496 (-52))
                         None)), Bench.scope).
Proof. split; reflexivity. Qed.

(** C7 as stated fails on the UXR driver: it writes nothing of its own before
    or after asking for the reply, where the MSO-X 3000 driver writes two
    commands. *)
Lemma UXR_measureStatistics_no_preamble :
  written (snd (UXR.measureStatistics (base := Bench.base Bench.vavg_reply)
                  Bench.scope)) = []
  /\ written (snd (MSOX3000.measureStatistics
                     (base := Bench.base Bench.vavg_reply) Bench.scope))
     = ["SYSTem:MENU MEASure"; "MEASure:STATistics:DISPlay ON"].
Proof. split; reflexivity. Qed.

End BenchRuns.

(** ** The statistics table *)

Module StatsFacts.

Import Keysight Spec.
Open Scope string_scope.
Open Scope list_scope.

Lemma range_step7 (n : nat) :
  Py.range 0 (7 + n) 7 = 0%nat :: map (fun i => 7 + i)%nat (Py.range 0 n 7).
Proof.
  unfold Py.range.
  replace (7 + n - 0 + (7 - 1))%nat with (n - 0 + (7 - 1) + 1 * 7)%nat by lia.
  rewrite Nat.div_add by discriminate.
  rewrite Nat.add_1_r. simpl seq.
  rewrite <- seq_shift, !map_map. simpl. f_equal.
  rewrite map_map. apply map_ext. intros k. reflexivity.
Qed.

Lemma range_short (n : nat) :
  (0 < n < 7)%nat -> Py.range 0 n 7 = [0%nat].
Proof.
  intros H. unfold Py.range.
  replace ((n - 0 + (7 - 1)) / 7)%nat with 1%nat; [reflexivity|].
  apply Nat.div_unique with (r := (n - 1)%nat); lia.
Qed.

Lemma slice_after (g rest : list string) (i : nat) :
  List.length g = 7%nat ->
  Py.slice (g ++ rest) (7 + i) (7 + i + 7) = Py.slice rest i (i + 7).
Proof.
  intros Hg. unfold Py.slice.
  replace (7 + i + 7 - (7 + i))%nat with 7%nat by lia.
  replace (i + 7 - i)%nat with 7%nat by lia.
  rewrite skipn_app, Hg.
  rewrite skipn_all2 by lia.
  replace (7 + i - 7)%nat with i by lia. reflexivity.
Qed.

Lemma rows_app (g rest : list string) :
  List.length g = 7%nat -> rows (g ++ rest) = g :: rows rest.
Proof.
  intros Hg. unfold rows.
  rewrite length_app, Hg, range_step7. simpl map. f_equal.
  - unfold Py.slice. simpl skipn.
    rewrite firstn_app, Hg, Nat.sub_diag, firstn_O, app_nil_r.
    apply firstn_all2. lia.
  - rewrite map_map. apply map_ext. intros i. now apply slice_after.
Qed.

Lemma rows_short (l : list string) :
  (0 < List.length l < 7)%nat -> rows l = [l].
Proof.
  intros H. unfold rows. rewrite range_short by assumption.
  cbn [map]. unfold Py.slice. cbn [skipn Nat.add Nat.sub].
  now rewrite firstn_all2 by lia.
Qed.

(** Every list is a run of full rows followed by fewer than seven fields. *)
Lemma rows_ind (P : list string -> Prop) :
  (forall l, (List.length l < 7)%nat -> P l) ->
  (forall g rest, List.length g = 7%nat -> P rest -> P (g ++ rest)) ->
  forall l, P l.
Proof.
  intros Hshort Hfull l.
  remember (List.length l) as n eqn:Hn. revert l Hn.
  induction n as [n IH] using lt_wf_ind. intros l Hn.
  destruct (Nat.lt_ge_cases (List.length l) 7) as [Hlt | Hge].
  - now apply Hshort.
  - rewrite <- (firstn_skipn 7 l).
    assert (Hg : List.length (firstn 7 l) = 7%nat)
      by (rewrite length_firstn; lia).
    apply Hfull; [exact Hg|].
    apply (IH (List.length (skipn 7 l))); [|reflexivity].
    rewrite length_skipn. lia.
Qed.

Section Loop.

Variable body : list string -> result stat.

Lemma for_append_acc (l : list (list string)) (acc : list stat) :
  for_append body l acc
  = bind (for_append body l []) (fun ds => Ok (acc ++ ds)).
Proof.
  revert acc. induction l as [|x r IH]; intros acc; simpl.
  - now rewrite app_nil_r.
  - destruct (body x) as [d|e]; simpl; [|reflexivity].
    rewrite (IH (acc ++ [d])), (IH [d]).
    destruct (for_append body r []) as [ds|e]; simpl; [|reflexivity].
    now rewrite <- app_assoc.
Qed.

Lemma convert_app (g rest : list string) :
  List.length g = 7%nat ->
  convert body (g ++ rest)
  = bind (body g) (fun d => bind (convert body rest) (fun ds => Ok (d :: ds))).
Proof.
  intros Hg. unfold convert. rewrite rows_app by assumption. simpl.
  destruct (body g) as [d|e]; simpl; [|reflexivity].
  apply for_append_acc.
Qed.

Lemma convert_short (l : list string) :
  (0 < List.length l < 7)%nat ->
  convert body l = bind (body l) (fun d => Ok [d]).
Proof.
  intros H. unfold convert. rewrite rows_short by assumption. simpl.
  destruct (body l); reflexivity.
Qed.

(** When every row converts, the loop returns the records in row order. *)
Lemma convert_concat (raws : list (list string)) (recs : list stat) :
  Forall2 (fun raw rec => List.length raw = 7%nat /\ body raw = Ok rec)
          raws recs ->
  convert body (List.concat raws) = Ok recs.
Proof.
  induction 1 as [|raw rec raws recs [Hlen Hraw] _ IH]; simpl.
  - reflexivity.
  - rewrite convert_app by assumption. rewrite Hraw. simpl.
    now rewrite IH.
Qed.

(** A reply whose length is not a multiple of seven fails with the exception
    of some row, as soon as short rows fail to convert. *)
Lemma convert_ragged (flat : list string) :
  (forall l, (List.length l < 7)%nat -> exists e, body l = Raise e) ->
  (List.length flat mod 7 <> 0)%nat ->
  exists e l, convert body flat = Raise e /\ body l = Raise e.
Proof.
  intros Hshort.
  induction flat as [l Hl | g rest Hg IH] using rows_ind; intros Hmod.
  - assert (0 < List.length l)%nat.
    { destruct l; simpl in *; [exfalso; apply Hmod; reflexivity | lia]. }
    rewrite convert_short by lia.
    destruct (Hshort l Hl) as [e He]. exists e, l.
    rewrite He. split; reflexivity.
  - rewrite length_app, Hg in Hmod.
    replace (7 + List.length rest)%nat
      with (List.length rest + 1 * 7)%nat in Hmod by lia.
    rewrite Nat.Div0.mod_add in Hmod.
    rewrite convert_app by assumption.
    destruct (body g) as [d|e] eqn:Hd; simpl.
    + destruct (IH Hmod) as (e & l & He & Hl).
      exists e, l. rewrite He. split; [reflexivity | assumption].
    + exists e, g. split; [reflexivity | assumption].
Qed.

End Loop.

Lemma convert_ext (body1 body2 : list string -> result stat)
    (flat : list string) :
  (forall row, In row (rows flat) -> body1 row = body2 row) ->
  convert body1 flat = convert body2 flat.
Proof.
  unfold convert. generalize (@nil stat). 
  induction (rows flat) as [|x r IH]; intros acc Hext; simpl.
  - reflexivity.
  - rewrite (Hext x) by (left; reflexivity).
    destruct (body2 x) as [d|e]; simpl; [|reflexivity].
    apply IH. intros row Hin. apply Hext. now right.
Qed.

End StatsFacts.

(** ** One row of the statistics table *)

Module RowFacts.

Import Keysight Spec.
Open Scope string_scope.
Open Scope list_scope.

Lemma float_of_str_raises (s : string) (e : exn) :
  Py.float_of_str s = Raise e -> is_ValueError e = true.
Proof.
  unfold Py.float_of_str. destruct (Py.float_of_chars _); [discriminate|].
  intros E; inversion E; reflexivity.
Qed.

Lemma int_of_str_raises (s : string) (e : exn) :
  Py.int_of_str s = Raise e -> is_ValueError e = true.
Proof.
  unfold Py.int_of_str. destruct (Py.int_of_chars _); [discriminate|].
  intros E; inversion E; reflexivity.
Qed.

Lemma int_of_float_raises (x : Py.float) (e : exn) :
  Py.int_of_float x = Raise e -> parse_failure e = true.
Proof.
  destruct x; simpl; try discriminate; intros E; inversion E; reflexivity.
Qed.

Lemma MSOX_count_raises (s : string) (e : exn) :
  MSOX_count s = Raise e -> is_ValueError e = true.
Proof. apply int_of_str_raises. Qed.

Lemma value_parse_failure (e : exn) :
  is_ValueError e = true -> parse_failure e = true.
Proof. intros H. unfold parse_failure. now rewrite H. Qed.

Lemma UXR_count_raises (s : string) (e : exn) :
  UXR_count s = Raise e -> parse_failure e = true.
Proof.
  unfold UXR_count. destruct (Py.float_of_str s) as [x|e'] eqn:Hx; simpl.
  - apply int_of_float_raises.
  - intros E; inversion E; subst. apply float_of_str_raises in Hx.
    unfold parse_failure. now rewrite Hx.
Qed.

Section Dict.

Variable count : string -> result Z.

(** [bad] holds of the exceptions the conversions of a row can raise. *)
Variable bad : exn -> bool.

Hypothesis bad_value : forall e, is_ValueError e = true -> bad e = true.

Hypothesis count_raises : forall s e, count s = Raise e -> bad e = true.

Ltac read_float s :=
  let H := fresh "Hf" in
  destruct (Py.float_of_str s) as [?|?] eqn:H; cbn [bind];
  [| apply float_of_str_raises, bad_value in H; rewrite H; reflexivity ].

(** A row either converts, and then has at least seven fields, or fails: with
    [IndexError] when a field is missing, with a conversion failure when a
    field that is there does not read as a number. *)
Lemma dict_outcome (stat : list string) :
  match dict count stat with
  | Ok _ => (7 <= List.length stat)%nat
  | Raise e => bad e || is_IndexError e = true
  end.
Proof.
  unfold dict, Py.getitem.
  destruct stat as [|l [|s1 [|s2 [|s3 [|s4 [|s5 [|s6 rest]]]]]]];
    cbn [nth_error bind]; try apply orb_true_r.
  - read_float s1. apply orb_true_r.
  - read_float s1. read_float s2. apply orb_true_r.
  - read_float s1. read_float s2. read_float s3. apply orb_true_r.
  - read_float s1. read_float s2. read_float s3. read_float s4.
    apply orb_true_r.
  - read_float s1. read_float s2. read_float s3. read_float s4.
    read_float s5. apply orb_true_r.
  - read_float s1. read_float s2. read_float s3. read_float s4.
    read_float s5.
    destruct (count s6) as [n|e] eqn:Hn; cbn [bind].
    + simpl. lia.
    + apply count_raises in Hn. rewrite Hn. reflexivity.
Qed.

Lemma dict_short (stat : list string) :
  (List.length stat < 7)%nat ->
  exists e, dict count stat = Raise e.
Proof.
  intros Hlen. pose proof (dict_outcome stat) as H.
  destruct (dict count stat) as [d|e]; [lia | now exists e].
Qed.

(** A short row whose numeric fields all read as floats fails on the first
    field that is missing. *)
Lemma dict_missing_field (lbl : string) (nums : list string) :
  (List.length nums < 6)%nat ->
  Forall (fun s => exists x, Py.float_of_str s = Ok x) nums ->
  dict count (lbl :: nums) = Raise IndexError.
Proof.
  intros Hlen Hall. unfold dict, Py.getitem.
  destruct nums as [|s1 [|s2 [|s3 [|s4 [|s5 [|s6 rest]]]]]];
    [ | | | | | | simpl in Hlen; lia ];
    repeat match goal with
           | H : Forall _ (_ :: _) |- _ =>
               let x := fresh "x" in let Hx := fresh "Hx" in
               inversion H as [| ? ? [x Hx] ?]; subst; clear H
           end;
    cbn [nth_error bind];
    repeat match goal with
           | Hx : Py.float_of_str _ = Ok _ |- _ =>
               rewrite Hx; cbn [bind]; clear Hx
           end;
    reflexivity.
Qed.

Lemma dict_row (raw : list string) (rec : stat) :
  row_of count raw rec -> List.length raw = 7%nat /\ dict count raw = Ok rec.
Proof.
  intros (c & mn & mx & me & sd & n & -> & Hc & Hmn & Hmx & Hme & Hsd & Hn).
  split; [reflexivity|].
  unfold dict, Py.getitem. cbn [nth_error bind].
  rewrite Hc, Hmn, Hmx, Hme, Hsd, Hn. cbn [bind].
  destruct rec; reflexivity.
Qed.

End Dict.

Lemma UXR_dict (stat : list string) :
  UXR.stat_dict stat = dict UXR_count stat.
Proof.
  unfold UXR.stat_dict, dict, UXR_count.
  repeat match goal with
         | |- bind ?r _ = bind ?r _ =>
             destruct r; cbn [bind]; [|reflexivity]
         end.
  destruct (Py.float_of_str _); reflexivity.
Qed.

Lemma MSOX_stats (flat : list string) :
  MSOX3000.stats_of_reply flat = Spec.convert (dict MSOX_count) flat.
Proof. reflexivity. Qed.

Lemma UXR_stats (flat : list string) :
  UXR.stats_of_reply flat = Spec.convert (dict UXR_count) flat.
Proof.
  change (UXR.stats_of_reply flat)
    with (Spec.convert UXR.stat_dict flat).
  apply StatsFacts.convert_ext. intros row _. apply UXR_dict.
Qed.

End RowFacts.

Section StatisticsClaims.

Import Keysight Spec StatsFacts RowFacts.
Open Scope string_scope.
Open Scope list_scope.

Context {base : Base}.

Lemma MSOX_measureStatistics_reply (self self' : t) (flat : list string) :
  _measureStatistics (shown self) = (Ok flat, self') ->
  MSOX3000.measureStatistics self = (MSOX3000.stats_of_reply flat, self').
Proof.
  intros H. unfold MSOX3000.measureStatistics, bindM, _instWrite, lift.
  simpl. rewrite <- app_assoc. simpl.
  unfold shown in H. now rewrite H.
Qed.

Lemma UXR_measureStatistics_reply (self self' : t) (flat : list string) :
  _measureStatistics self = (Ok flat, self') ->
  UXR.measureStatistics self = (UXR.stats_of_reply flat, self').
Proof.
  intros H. unfold UXR.measureStatistics, bindM, lift. now rewrite H.
Qed.

(** C1.  When the base method answers with [N] groups of seven fields, each
    made of a label, five fields that read as floats and a count that reads
    as an integer, [measureStatistics] returns [N] records, one per group and
    in the order of the groups, with the label as it stands and the six
    numbers as read; this holds for the MSO-X 3000 driver and for the UXR
    driver.  The reply [Vavg, 1.0, 0.5, 1.5, 1.0, 0.01, 100] gives the one
    record with label [Vavg], 1.0, 0.5, 1.5, 1.0, 0.01 and count 100. *)
Theorem measureStatistics_records
    (self self' : t) (raws : list (list string)) (recs : list stat) :
  (_measureStatistics (shown self) = (Ok (List.concat raws), self') ->
   Forall2 (row_of MSOX_count) raws recs ->
   MSOX3000.measureStatistics self = (Ok recs, self')
   /\ List.length recs = List.length raws)
  /\ (_measureStatistics self = (Ok (List.concat raws), self') ->
      Forall2 (row_of UXR_count) raws recs ->
      UXR.measureStatistics self = (Ok recs, self')
      /\ List.length recs = List.length raws)
  /\ MSOX3000.stats_of_reply Bench.vavg_reply = Ok [Bench.vavg_record]
  /\ UXR.stats_of_reply Bench.vavg_reply = Ok [Bench.vavg_record].
Proof.
  split; [|split; [|split; vm_compute; reflexivity]].
  - intros Hreply Hrows. split.
    + rewrite (MSOX_measureStatistics_reply _ Hreply), MSOX_stats.
      f_equal. apply convert_concat.
      eapply Forall2_impl; [|exact Hrows].
      intros raw rec Hrow. now apply dict_row.
    + symmetry. eapply Forall2_length; exact Hrows.
  - intros Hreply Hrows. split.
    + rewrite (UXR_measureStatistics_reply _ Hreply), UXR_stats.
      f_equal. apply convert_concat.
      eapply Forall2_impl; [|exact Hrows].
      intros raw rec Hrow. now apply dict_row.
    + symmetry. eapply Forall2_length; exact Hrows.
Qed.

(** C8, as the code has it.  When the number of fields of the reply is not a
    multiple of seven, [measureStatistics] raises and returns no record.  The
    exception is [IndexError] or a conversion failure ([ValueError]; on the
    UXR driver also [OverflowError]).  It is [IndexError] when the complete
    groups convert and the numeric fields of the last, short group all read
    as floats. *)
Theorem measureStatistics_ragged_reply
    (self self' : t) (flat : list string) :
  (List.length flat mod 7 <> 0)%nat ->
  (_measureStatistics (shown self) = (Ok flat, self') ->
   exists e, MSOX3000.measureStatistics self = (Raise e, self')
             /\ is_ValueError e || is_IndexError e = true)
  /\ (_measureStatistics self = (Ok flat, self') ->
      exists e, UXR.measureStatistics self = (Raise e, self')
                /\ parse_failure e || is_IndexError e = true)
  /\ (forall raws recs lbl nums,
        flat = List.concat raws ++ lbl :: nums ->
        (List.length nums < 6)%nat ->
        Forall (fun s => exists x, Py.float_of_str s = Ok x) nums ->
        (Forall2 (row_of MSOX_count) raws recs ->
         MSOX3000.stats_of_reply flat = Raise IndexError)
        /\ (Forall2 (row_of UXR_count) raws recs ->
            UXR.stats_of_reply flat = Raise IndexError)).
Proof.
  intros Hmod. split; [|split].
  - intros Hreply.
    rewrite (MSOX_measureStatistics_reply _ Hreply), MSOX_stats.
    destruct (convert_ragged (dict MSOX_count) flat) as (e & l & He & Hl).
    + intros l Hl. now apply dict_short with (bad := is_ValueError);
        [ | apply MSOX_count_raises | ].
    + exact Hmod.
    + exists e. split; [now rewrite He|].
      pose proof (@dict_outcome MSOX_count is_ValueError
                    (fun e H => H) MSOX_count_raises l) as Hout.
      now rewrite Hl in Hout.
  - intros Hreply.
    rewrite (UXR_measureStatistics_reply _ Hreply), UXR_stats.
    destruct (convert_ragged (dict UXR_count) flat) as (e & l & He & Hl).
    + intros l Hl. now apply dict_short with (bad := parse_failure);
        [ apply value_parse_failure | apply UXR_count_raises | ].
    + exact Hmod.
    + exists e. split; [now rewrite He|].
      pose proof (@dict_outcome UXR_count parse_failure
                    value_parse_failure UXR_count_raises l) as Hout.
      now rewrite Hl in Hout.
  - intros raws recs lbl nums -> Hlen Hnums.
    assert (Htail : forall count,
               convert (dict count) (lbl :: nums) = Raise IndexError).
    { intros count. rewrite convert_short by (simpl; lia).
      now rewrite dict_missing_field. }
    assert (Hall : forall count,
               Forall2 (row_of count) raws recs ->
               convert (dict count) (List.concat raws ++ lbl :: nums)
               = Raise IndexError).
    { intros count Hrows. clear Hmod.
      induction Hrows as [|raw rec raws recs Hrow _ IH]; simpl.
      - apply Htail.
      - destruct (dict_row Hrow) as [Hraw Hrec].
        rewrite <- app_assoc, convert_app, Hrec by assumption. simpl.
        now rewrite IH. }
    split; intros Hrows.
    + rewrite MSOX_stats. now apply Hall.
    + rewrite UXR_stats. now apply Hall.
Qed.

End StatisticsClaims.

(** ** Integers that a binary64 float holds exactly *)

Module FloatFacts.

Open Scope Z_scope.








End FloatFacts.

(** ** Plain integers read by [int()] and by [float()] *)

Module ParseFacts.

Import Py Spec.
Open Scope list_scope.
Open Scope Z_scope.














End ParseFacts.

(** ** The count field on the two drivers *)

Module CountFacts.

Import Keysight Spec StatsFacts RowFacts.
Open Scope string_scope.
Open Scope list_scope.




End CountFacts.

Section CountRuns.

Import Keysight Spec.
Open Scope string_scope.
Open Scope list_scope.


(** C8 as stated fails: a reply cut short after three fields raises
    [IndexError], which is not a failure to read a number. *)
Lemma short_reply_IndexError :
  MSOX3000.measureStatistics (base := Bench.base Bench.short_reply)
    Bench.scope
  = (Raise IndexError, shown Bench.scope)
  /\ UXR.measureStatistics (base := Bench.base Bench.short_reply) Bench.scope
     = (Raise IndexError, Bench.scope).
Proof. split; vm_compute; reflexivity. Qed.

End CountRuns.

Section StatisticsRuns.

Import Keysight Spec.
Open Scope string_scope.
Open Scope list_scope.

Lemma vavg_row (count : string -> result Z) (raw : string) :
  count raw = Ok 100%Z ->
  row_of count ["Vavg"; "1.0"; "0.5"; "1.5"; "1.0"; "0.01"; raw]
         Bench.vavg_record.
Proof.
  intros Hcount. exists "1.0", "0.5", "1.5", "1.0", "0.01", raw.
  repeat split; try exact Hcount; vm_compute; reflexivity.
Qed.

Lemma measureStatistics_records_witness :
  MSOX3000.measureStatistics (base := Bench.base Bench.vavg_reply)
    Bench.scope
  = (Ok [Bench.vavg_record], shown Bench.scope)
  /\ List.length [Bench.vavg_record] = List.length [Bench.vavg_reply].
Proof.
  apply (proj1 (@measureStatistics_records (Bench.base Bench.vavg_reply)
                  Bench.scope (shown Bench.scope)
                  [Bench.vavg_reply] [Bench.vavg_record])).
  - reflexivity.
  - constructor; [|constructor]. apply vavg_row. reflexivity.
Defined.

Lemma measureStatistics_ragged_reply_witness :
  exists e,
    MSOX3000.measureStatistics (base := Bench.base Bench.short_reply)
      Bench.scope
    = (Raise e, shown Bench.scope)
    /\ is_ValueError e || is_IndexError e = true.
Proof.
  apply (@measureStatistics_ragged_reply (Bench.base Bench.short_reply)
           Bench.scope (shown Bench.scope) Bench.short_reply).
  - discriminate.
  - reflexivity.
Defined.

End StatisticsRuns.

(** * Further properties of the drivers *)

(** ** Autoscale: outcomes and messages *)

Module AutoscaleMore.

Import Keysight Spec AutoscaleFacts.
Open Scope string_scope.

Section WithBase.

Context {base : Base}.

Lemma chanstr_raises (self : t) (chans : list atom) (acc : string) (e : exn) :
  MSOX3000.autoscale_chanstr self chans acc = Raise e ->
  is_ValueError e = true.
Proof.
  revert acc. induction chans as [|chan rest IH]; intros acc; simpl.
  - discriminate.
  - destruct (contains (chanAllValidList self) chan); simpl.
    + apply IH.
    + intros E; inversion E; reflexivity.
Qed.

Lemma chanstr_ok_valid (self : t) (chans : list atom) (acc x : string) :
  MSOX3000.autoscale_chanstr self chans acc = Ok x ->
  all_valid self chans.
Proof.
  revert acc. induction chans as [|chan rest IH]; intros acc; simpl.
  - constructor.
  - destruct (contains (chanAllValidList self) chan) eqn:Hin; simpl.
    + intros H. constructor; [exact Hin | exact (IH _ H)].
    + discriminate.
Qed.

Lemma chanstr_first_invalid (self : t) (pre post : list atom) (bad : atom) :
  all_valid self pre ->
  contains (chanAllValidList self) bad = false ->
  forall acc,
    MSOX3000.autoscale_chanstr self (pre ++ bad :: post) acc
    = Raise (ValueError (invalid_msg bad)).
Proof.
  intros Hpre Hbad.
  induction Hpre as [|chan rest Hin _ IH]; intros acc; simpl.
  - rewrite Hbad. reflexivity.
  - rewrite Hin. simpl. apply IH.
Qed.

Lemma selected_frame (arg : pyobj) (self : t) :
  chanAllValidList (selected arg self) = chanAllValidList self
  /\ written (selected arg self) = written self.
Proof. destruct arg as [[| |]|]; split; reflexivity. Qed.

End WithBase.

End AutoscaleMore.

Section AutoscaleExtras.

Import Keysight Spec AutoscaleFacts AutoscaleMore.
Open Scope string_scope.

Context {base : Base}.

(** X1.  Calling [setupAutoscaleOLD] without a channel is the same as calling
    it with the channel the object holds. *)
Theorem setupAutoscaleOLD_default (self : t) :
  MSOX3000.setupAutoscaleOLD (Atom ANone) self
  = MSOX3000.setupAutoscaleOLD (channel self) self.
Proof.
  destruct self as [c valid log].
  destruct c as [[| |]|]; reflexivity.
Qed.

(** X2.  With one channel that is in the allowed set, given as a value and not
    as a list, [setupAutoscaleOLD] makes it the channel of the object and
    writes the one command ["AUToscale "] followed by its formatted name. *)
Theorem setupAutoscaleOLD_single (self : t) (chan : atom) :
  chan <> ANone ->
  contains (chanAllValidList self) chan = true ->
  MSOX3000.setupAutoscaleOLD (Atom chan) self
  = (Ok tt,
     wrote ["AUToscale " ++ channelStr (set_channel (Atom chan) self) chan]
           (set_channel (Atom chan) self)).
Proof.
  intros Hsome Hin. unfold MSOX3000.setupAutoscaleOLD.
  replace (match Atom chan with
           | Atom ANone => self
           | _ => set_channel (Atom chan) self
           end) with (set_channel (Atom chan) self)
    by (destruct chan; [congruence | reflexivity | reflexivity]).
  cbn [channel set_channel List.length Nat.ltb Nat.leb].
  unfold bindM, lift. cbn [MSOX3000.autoscale_chanstr].
  change (chanAllValidList (set_channel (Atom chan) self))
    with (chanAllValidList self).
  rewrite Hin. reflexivity.
Qed.

(** X3.  Whatever the argument, [setupAutoscaleOLD] either returns, having
    added to the log exactly one command that begins with ["AUToscale "], or
    raises [ValueError], having written nothing.  It never changes the list
    of allowed channels. *)
Theorem setupAutoscaleOLD_outcome
    (self self' : t) (arg : pyobj) (r : result unit) :
  MSOX3000.setupAutoscaleOLD arg self = (r, self') ->
  chanAllValidList self' = chanAllValidList self
  /\ match r with
     | Ok _ =>
         exists names,
           written self'
           = (written self ++ [("AUToscale " ++ names)%string])%list
     | Raise e => is_ValueError e = true /\ written self' = written self
     end.
Proof.
  unfold MSOX3000.setupAutoscaleOLD. fold (selected arg self).
  destruct (selected_frame arg self) as [Hvalid Hlog].
  destruct (5 <? _)%nat.
  - unfold raise. intros E. injection E as <- <-.
    repeat split; assumption.
  - unfold bindM, lift.
    destruct (MSOX3000.autoscale_chanstr (selected arg self) _ "")
      as [x|e] eqn:Hx.
    + unfold _instWrite. intros E. injection E as <- <-.
      cbn [chanAllValidList written]. split; [exact Hvalid|].
      exists (Py.str_tail x). now rewrite Hlog.
    + intros E. injection E as <- <-.
      split; [exact Hvalid|]. split; [|exact Hlog].
      exact (chanstr_raises _ _ _ Hx).
Qed.

(** X4.  On a list, [setupAutoscaleOLD] returns normally exactly when the
    list has at most five entries and all of them are in the allowed set;
    the empty list is among them. *)
Theorem setupAutoscaleOLD_ok_iff (self : t) (chans : list atom) :
  fst (MSOX3000.setupAutoscaleOLD (PyList chans) self) = Ok tt
  <-> (List.length chans <= 5)%nat /\ all_valid self chans.
Proof.
  unfold MSOX3000.setupAutoscaleOLD.
  cbn [channel set_channel].
  destruct (5 <? List.length chans)%nat eqn:Hlen.
  - apply Nat.ltb_lt in Hlen. split; [discriminate | lia].
  - apply Nat.ltb_ge in Hlen. unfold bindM, lift.
    destruct (MSOX3000.autoscale_chanstr
                (set_channel (PyList chans) self) chans "") as [x|e] eqn:Hx.
    + split; [|reflexivity]. intros _. split; [exact Hlen|].
      exact (chanstr_ok_valid _ _ _ Hx).
    + split; [discriminate|]. intros [_ Hvalid].
      rewrite (chanstr_valid (self := set_channel (PyList chans) self)
                 Hvalid "") in Hx.
      discriminate.
Qed.

(** X5.  The message of the error.  A list of more than five entries is
    refused as too long, whatever its entries.  In a list of at most five
    entries, the error names the first entry that is not in the allowed
    set. *)
Theorem setupAutoscaleOLD_message (self : t) :
  (forall chans,
     (5 < List.length chans)%nat ->
     fst (MSOX3000.setupAutoscaleOLD (PyList chans) self)
     = Raise (ValueError too_many_msg))
  /\ (forall pre bad post,
        (List.length (pre ++ bad :: post) <= 5)%nat ->
        all_valid self pre ->
        contains (chanAllValidList self) bad = false ->
        fst (MSOX3000.setupAutoscaleOLD (PyList (pre ++ bad :: post)) self)
        = Raise (ValueError (invalid_msg bad))).
Proof.
  split.
  - intros chans Hlen. unfold MSOX3000.setupAutoscaleOLD.
    cbn [channel set_channel].
    apply Nat.ltb_lt in Hlen. now rewrite Hlen.
  - intros pre bad post Hlen Hpre Hbad. unfold MSOX3000.setupAutoscaleOLD.
    cbn [channel set_channel].
    apply Nat.ltb_ge in Hlen. rewrite Hlen. unfold bindM, lift.
    now rewrite (@chanstr_first_invalid base
                   (set_channel (PyList (pre ++ bad :: post)) self)
                   pre post bad Hpre Hbad "").
Qed.

(** X6.  The empty list passes the checks: [setupAutoscaleOLD] then writes
    the bare command ["AUToscale "], keeps the empty list as the channel of
    the object, and a second call without a channel writes the bare command
    again. *)
Theorem setupAutoscaleOLD_empty_list (self : t) :
  MSOX3000.setupAutoscaleOLD (PyList []) self
  = (Ok tt, wrote ["AUToscale "] (set_channel (PyList []) self))
  /\ (MSOX3000.setupAutoscaleOLD (PyList []) ;;
      MSOX3000.setupAutoscaleOLD (Atom ANone))%method self
     = (Ok tt,
        wrote ["AUToscale "; "AUToscale "] (set_channel (PyList []) self)).
Proof.
  split; [reflexivity|].
  unfold bindM, MSOX3000.setupAutoscaleOLD, wrote, _instWrite, lift.
  cbn. now rewrite <- app_assoc.
Qed.

End AutoscaleExtras.

(** ** Annotation and [polishOLD]: further cases *)

Section DisplayExtras.

Import Keysight Spec.
Open Scope string_scope.

Context {base : Base}.

Variable annotateColor : string -> M unit.

Lemma three_writes (self : t) (a b c : string) :
  (_instWrite a ;; _instWrite b ;; _instWrite c)%method self
  = (Ok tt, wrote [a; b; c] self).
Proof.
  unfold bindM, _instWrite, wrote. cbn.
  now rewrite <- !app_assoc.
Qed.

(** X7.  [annotateOLD] with no colour, or with the empty string as colour,
    does not call [annotateColor] and writes three commands: background,
    text between double quotes, annotation on.  With a colour it first calls
    [annotateColor]; the three commands follow when that call returns, and
    none of them is written when it raises. *)
Theorem annotateOLD_commands
    (self : t) (text background : string) (color : option string) :
  (Py.truthy color = false ->
   MSOX3000.annotateOLD annotateColor text color background self
   = (Ok tt, wrote (annotation text background) self))
  /\ (forall c, color = Some c -> Py.truthy color = true ->
      MSOX3000.annotateOLD annotateColor text color background self
      = match annotateColor c self with
        | (Ok _, self1) => (Ok tt, wrote (annotation text background) self1)
        | (Raise e, self1) => (Raise e, self1)
        end).
Proof.
  split.
  - intros Hfalse. unfold MSOX3000.annotateOLD.
    replace (match color with
             | Some c => if Py.truthy color then annotateColor c else ret tt
             | None => ret tt
             end) with (@ret unit tt)
      by (destruct color; [rewrite Hfalse|]; reflexivity).
    unfold bindM at 1. cbn [ret]. apply three_writes.
  - intros c -> Htrue. unfold MSOX3000.annotateOLD. rewrite Htrue.
    unfold bindM at 1.
    destruct (annotateColor c self) as [[u|e] self1]; [|reflexivity].
    apply three_writes.
Qed.

(** X8.  [polishOLD] never shows a NaN as the sentinel string, and always
    shows plus infinity as the sentinel, as long as the threshold itself is
    not a NaN. *)
Theorem polishOLD_nan_and_infinity (self : t) (measure : option string) :
  fst (MSOX3000.polishOLD S754_nan measure self) <> Ok (PStr "------")
  /\ (OverRange <> S754_nan ->
      MSOX3000.polishOLD (S754_infinity false) measure self
      = (Ok (PStr "------"), self)).
Proof.
  unfold MSOX3000.polishOLD, Py.float_ge, SFleb. split.
  - replace (SFcompare OverRange S754_nan) with (@None comparison)
      by (destruct OverRange; reflexivity).
    destruct (measureTblUnits self measure) as [u|[]]; discriminate.
  - intros Hnan.
    destruct OverRange as [s|[]| |[] ? ?]; try reflexivity. congruence.
Qed.

(** X9.  [polishOLD] raises exactly when the value is below the threshold and
    the unit lookup raises something other than [KeyError]; the exception is
    the one of the lookup.  In every case the object is left as it was. *)
Theorem polishOLD_raises_iff
    (self : t) (value : Py.float) (measure : option string) (e : exn) :
  (fst (MSOX3000.polishOLD value measure self) = Raise e
   <-> Py.float_ge value OverRange = false
       /\ measureTblUnits self measure = Raise e
       /\ e <> KeyError)
  /\ snd (MSOX3000.polishOLD value measure self) = self.
Proof.
  unfold MSOX3000.polishOLD.
  destruct (Py.float_ge value OverRange).
  - split; [|reflexivity]. split; [discriminate | intros [H _]; discriminate].
  - destruct (measureTblUnits self measure) as [u|e'].
    + split; [|reflexivity].
      split; [discriminate | intros (_ & H & _); discriminate].
    + assert (Hk : e' = KeyError \/ e' <> KeyError)
        by (destruct e'; (now left) || (right; discriminate)).
      destruct Hk as [-> | Hk].
      * split; [|reflexivity]. cbn [fst]. split; [discriminate|].
        intros (_ & E & Hne). injection E as <-. congruence.
      * replace (match e' with
                 | KeyError => (Ok (PQuantity (mkQuantity value None)), self)
                 | _ => (@Raise polished e', self)
                 end) with (@Raise polished e', self)
          by (destruct e'; congruence).
        split; [|reflexivity]. cbn [fst]. split.
        -- intros E. injection E as <-. repeat split. exact Hk.
        -- intros (_ & E & _). injection E as <-. reflexivity.
Qed.

End DisplayExtras.

(** ** The statistics table: when it succeeds, how it fails *)

Module StatsMore.

Import Keysight Spec StatsFacts RowFacts.
Open Scope string_scope.
Open Scope list_scope.

Section Dict.

Variable count : string -> result Z.

(** A row of seven fields that converts is a group in the sense of
    [row_of]. *)
Lemma dict_inv (g : list string) (d : stat) :
  List.length g = 7%nat -> dict count g = Ok d -> row_of count g d.
Proof.
  intros Hlen.
  destruct g as [|l [|s1 [|s2 [|s3 [|s4 [|s5 [|s6 [|s7 rest]]]]]]]];
    try discriminate.
  unfold dict, Py.getitem. cbn [nth_error bind].
  destruct (Py.float_of_str s1) as [x1|] eqn:H1; [|discriminate].
  destruct (Py.float_of_str s2) as [x2|] eqn:H2; [|discriminate].
  destruct (Py.float_of_str s3) as [x3|] eqn:H3; [|discriminate].
  destruct (Py.float_of_str s4) as [x4|] eqn:H4; [|discriminate].
  destruct (Py.float_of_str s5) as [x5|] eqn:H5; [|discriminate].
  destruct (count s6) as [n|] eqn:H6; [|discriminate].
  cbn [bind]. intros E. injection E as <-.
  exists s1, s2, s3, s4, s5, s6. repeat split; assumption.
Qed.

Variable bad : exn -> bool.

Hypothesis bad_value : forall e, is_ValueError e = true -> bad e = true.

Hypothesis count_raises : forall s e, count s = Raise e -> bad e = true.

(** A row of seven fields fails on the reading of a number only. *)
Lemma dict_full_error (g : list string) (e : exn) :
  List.length g = 7%nat -> dict count g = Raise e -> bad e = true.
Proof.
  intros Hlen.
  destruct g as [|l [|s1 [|s2 [|s3 [|s4 [|s5 [|s6 [|s7 rest]]]]]]]];
    try discriminate.
  unfold dict, Py.getitem. cbn [nth_error bind].
  repeat match goal with
         | |- context [Py.float_of_str ?s] =>
             let H := fresh "Hf" in
             destruct (Py.float_of_str s) as [?|?] eqn:H; cbn [bind];
             [| intros E; injection E as <-;
                now apply float_of_str_raises, bad_value in H ]
         end.
  destruct (count s6) as [n|e'] eqn:Hn; cbn [bind]; [discriminate|].
  intros E. injection E as <-. now apply count_raises in Hn.
Qed.

Lemma convert_ok_inv (flat : list string) :
  forall recs,
    convert (dict count) flat = Ok recs ->
    exists raws,
      flat = List.concat raws /\ Forall2 (row_of count) raws recs.
Proof.
  induction flat as [l Hl | g rest Hg IH] using rows_ind; intros recs.
  - destruct l as [|f l'].
    + intros E. change (@Ok (list stat) [] = Ok recs) in E.
      injection E as <-. exists []. split; constructor.
    + rewrite convert_short by (simpl in *; lia).
      destruct (@dict_short count (fun _ => true)
                  (fun _ _ => eq_refl) (fun _ _ _ => eq_refl) (f :: l') Hl)
        as [e He].
      rewrite He. discriminate.
  - rewrite convert_app by assumption.
    destruct (dict count g) as [d|] eqn:Hd; [|discriminate]. cbn [bind].
    destruct (convert (dict count) rest) as [ds|] eqn:Hds; [|discriminate].
    cbn [bind]. intros E. injection E as <-.
    destruct (IH ds eq_refl) as (raws & -> & Hrows).
    exists (g :: raws). split; [reflexivity|].
    constructor; [now apply dict_inv | exact Hrows].
Qed.

Lemma convert_aligned_error (flat : list string) (e : exn) :
  (List.length flat mod 7 = 0)%nat ->
  convert (dict count) flat = Raise e -> bad e = true.
Proof.
  induction flat as [l Hl | g rest Hg IH] using rows_ind; intros Hmod.
  - destruct l as [|f l']; [discriminate|].
    exfalso. rewrite Nat.mod_small in Hmod by exact Hl. discriminate.
  - rewrite length_app, Hg in Hmod.
    replace (7 + List.length rest)%nat
      with (List.length rest + 1 * 7)%nat in Hmod by lia.
    rewrite Nat.Div0.mod_add in Hmod.
    rewrite convert_app by assumption.
    destruct (dict count g) as [d|e'] eqn:Hd; cbn [bind].
    + destruct (convert (dict count) rest) as [ds|e'] eqn:Hds; cbn [bind];
        [discriminate|].
      intros E. injection E as <-. now apply IH.
    + intros E. injection E as <-. now apply dict_full_error with (g := g).
Qed.

End Dict.

(** The loop stops at the first group that fails. *)
Lemma convert_first_failure (count : string -> result Z)
    (raws : list (list string)) (recs : list stat)
    (g rest : list string) (e : exn) :
  Forall2 (row_of count) raws recs ->
  List.length g = 7%nat ->
  dict count g = Raise e ->
  convert (dict count) (List.concat raws ++ g ++ rest) = Raise e.
Proof.
  intros Hrows Hg He.
  induction Hrows as [|raw rec raws recs Hrow _ IH]; simpl.
  - rewrite convert_app by assumption. now rewrite He.
  - destruct (dict_row Hrow) as [Hraw Hrec].
    rewrite <- app_assoc, convert_app, Hrec by assumption. cbn [bind].
    now rewrite IH.
Qed.

Section WithBase.

Context {base : Base}.

Lemma MSOX_measureStatistics_eq (self : t) :
  MSOX3000.measureStatistics self
  = (let (r, self') := _measureStatistics (shown self) in
     (bind r (convert (dict MSOX_count)), self')).
Proof.
  unfold MSOX3000.measureStatistics, bindM, _instWrite, lift, shown. simpl.
  rewrite <- app_assoc. simpl.
  destruct (_measureStatistics _) as [[reply|e] self']; reflexivity.
Qed.

Lemma UXR_measureStatistics_eq (self : t) :
  UXR.measureStatistics self
  = (let (r, self') := _measureStatistics self in
     (bind r (convert (dict UXR_count)), self')).
Proof.
  unfold UXR.measureStatistics, bindM, lift.
  destruct (_measureStatistics self) as [[reply|e] self'];
    [|reflexivity].
  now rewrite UXR_stats.
Qed.

End WithBase.

End StatsMore.

(** ** Texts that [int()] accepts *)

Module IntFacts.

Import Py Spec.
Open Scope list_scope.
Open Scope Z_scope.

Lemma space_int_char (c : ascii) : isspace c = true -> int_char c = true.
Proof. intros H. unfold int_char. now rewrite H. Qed.

Lemma lstrip_text (cs : list ascii) : int_text (lstrip cs) -> int_text cs.
Proof.
  induction cs as [|c r IH]; cbn [lstrip]; [trivial|].
  destruct (isspace c) eqn:Hc; [|trivial].
  intros H. constructor; [now apply space_int_char | now apply IH].
Qed.

Lemma long_digits_text (cs : list ascii) :
  forall b acc n rest,
    long_digits b acc cs = Some (n, rest) -> int_text rest -> int_text cs.
Proof.
  induction cs as [|c r IH]; intros b acc n rest; cbn [long_digits].
  - constructor.
  - destruct (isdigit c) eqn:Hd.
    + intros H Hrest. constructor; [|exact (IH _ _ _ _ H Hrest)].
      unfold int_char. rewrite Hd. now rewrite orb_true_r.
    + destruct (is_char "_" c) eqn:Hu.
      * destruct b; [discriminate|].
        intros H Hrest. constructor; [|exact (IH _ _ _ _ H Hrest)].
        unfold int_char. rewrite Hu. now rewrite !orb_true_r.
      * destruct b; [discriminate|].
        intros H Hrest. injection H as _ <-. exact Hrest.
Qed.

Lemma take_sign_text (cs body : list ascii) (neg : bool) :
  take_sign cs = (neg, body) -> int_text body -> int_text cs.
Proof.
  destruct cs as [|c r]; cbn [take_sign].
  - intros E _. constructor.
  - destruct (is_char "+" c) eqn:Hp.
    + intros E Hb. injection E as _ <-. constructor; [|exact Hb].
      unfold int_char. rewrite Hp. now rewrite !orb_true_r.
    + destruct (is_char "-" c) eqn:Hm.
      * intros E Hb. injection E as _ <-. constructor; [|exact Hb].
        unfold int_char. rewrite Hm. now rewrite !orb_true_r.
      * intros E Hb. injection E as _ <-. exact Hb.
Qed.

(** Every character of a text that [int()] accepts is a space, a digit, an
    underscore or a sign. *)
Lemma int_of_chars_text (cs : list ascii) (n : Z) :
  int_of_chars cs = Some n -> int_text cs.
Proof.
  unfold int_of_chars.
  destruct (take_sign (lstrip cs)) as [neg body] eqn:Hsign.
  intros H. apply lstrip_text. apply (take_sign_text _ Hsign).
  destruct body as [|c r]; [discriminate|].
  destruct (isdigit c); [|discriminate].
  destruct (long_digits false 0 (c :: r)) as [[m rest]|] eqn:Hscan;
    [|discriminate].
  apply (long_digits_text _ _ _ Hscan).
  apply lstrip_text.
  destruct (lstrip rest); [constructor | discriminate].
Qed.

Lemma int_of_str_text (s : string) (n : Z) (c : ascii) :
  int_of_str s = Ok n -> In c (list_ascii_of_string s) -> int_char c = true.
Proof.
  unfold int_of_str.
  destruct (int_of_chars (list_ascii_of_string s)) as [m|] eqn:H;
    [|discriminate].
  intros _ Hin. apply int_of_chars_text in H.
  exact (proj1 (Forall_forall _ _) H c Hin).
Qed.

End IntFacts.

Module StatsMore2.

Import Keysight Spec StatsFacts RowFacts StatsMore.
Open Scope string_scope.
Open Scope list_scope.

Lemma rows_length (count : string -> result Z)
    (raws : list (list string)) (recs : list stat) :
  Forall2 (row_of count) raws recs ->
  List.length (List.concat raws) = (7 * List.length recs)%nat.
Proof.
  induction 1 as [|raw rec raws recs Hrow _ IH]; simpl; [reflexivity|].
  destruct (dict_row Hrow) as [Hlen _].
  rewrite length_app, Hlen, IH. lia.
Qed.

(** The seventh field of the [k]-th group is read by [count]. *)
Lemma rows_count_field (count : string -> result Z)
    (raws : list (list string)) (recs : list stat) :
  Forall2 (row_of count) raws recs ->
  forall k s,
    nth_error (List.concat raws) (7 * k + 6) = Some s ->
    exists n, count s = Ok n.
Proof.
  induction 1 as [|raw rec raws recs Hrow _ IH]; intros k s;
    cbn [List.concat].
  - rewrite nth_error_nil. discriminate.
  - destruct Hrow as (c & mn & mx & me & sd & n & -> & _ & _ & _ & _ & _ & Hn).
    destruct k as [|k].
    + change (7 * 0 + 6)%nat with 6%nat. cbn [app nth_error].
      intros E. injection E as <-. now exists (COUN rec).
    + replace (7 * S k + 6)%nat with (7 + (7 * k + 6))%nat by lia.
      cbn [app nth_error Nat.add]. apply IH.
Qed.

Lemma row_same_but_count (count1 count2 : string -> result Z)
    (g : list string) (d1 d2 : stat) :
  row_of count1 g d1 -> row_of count2 g d2 -> same_but_count d1 d2.
Proof.
  intros (c & mn & mx & me & sd & n & -> & H1 & H2 & H3 & H4 & H5 & _)
         (c' & mn' & mx' & me' & sd' & n' & E & K1 & K2 & K3 & K4 & K5 & _).
  injection E as El <- <- <- <- <- <-.
  unfold same_but_count. repeat split; congruence.
Qed.

Lemma convert_same_but_count (count1 count2 : string -> result Z)
    (flat : list string) :
  forall recs1 recs2,
    convert (dict count1) flat = Ok recs1 ->
    convert (dict count2) flat = Ok recs2 ->
    Forall2 same_but_count recs1 recs2.
Proof.
  intros recs1 recs2 H1 H2.
  destruct (convert_ok_inv _ _ H1) as (raws1 & E1 & R1).
  clear H1. subst flat. revert recs2 H2.
  induction R1 as [|raw rec raws recs Hrow _ IH]; intros recs2 H2.
  - change (@Ok (list stat) [] = Ok recs2) in H2. injection H2 as <-.
    constructor.
  - destruct (dict_row Hrow) as [Hlen _].
    simpl in H2. rewrite convert_app in H2 by assumption.
    destruct (dict count2 raw) as [d2|] eqn:Hd2; [|discriminate].
    cbn [bind] in H2.
    destruct (convert (dict count2) (List.concat raws)) as [ds|] eqn:Hds;
      [|discriminate].
    cbn [bind] in H2. injection H2 as <-.
    constructor; [|now apply IH].
    apply (@row_same_but_count count1 count2 raw rec d2 Hrow).
    now apply dict_inv.
Qed.

End StatsMore2.

Section StatisticsExtras.

Import Keysight Spec StatsFacts RowFacts StatsMore StatsMore2.
Open Scope string_scope.
Open Scope list_scope.

Context {base : Base}.

(** X10.  [measureStatistics] returns records only for a reply made of whole
    groups that all convert: when it returns [recs], the reply of the base
    method is the concatenation of groups of seven fields, one per record and
    in the same order, each with its numbers read into its record, and the
    reply has seven times as many fields as there are records.  This holds
    on both drivers. *)
Theorem measureStatistics_ok_inv (self self' : t) (recs : list stat) :
  (MSOX3000.measureStatistics self = (Ok recs, self') ->
   exists raws,
     _measureStatistics (shown self) = (Ok (List.concat raws), self')
     /\ Forall2 (row_of MSOX_count) raws recs
     /\ List.length (List.concat raws) = (7 * List.length recs)%nat)
  /\ (UXR.measureStatistics self = (Ok recs, self') ->
      exists raws,
        _measureStatistics self = (Ok (List.concat raws), self')
        /\ Forall2 (row_of UXR_count) raws recs
        /\ List.length (List.concat raws) = (7 * List.length recs)%nat).
Proof.
  split.
  - rewrite MSOX_measureStatistics_eq.
    destruct (_measureStatistics (shown self)) as [[flat|e] s1];
      cbn [bind]; [|discriminate].
    intros E. injection E as Hc <-.
    destruct (convert_ok_inv _ _ Hc) as (raws & -> & Hrows).
    exists raws. repeat split; [exact Hrows | exact (rows_length Hrows)].
  - rewrite UXR_measureStatistics_eq.
    destruct (_measureStatistics self) as [[flat|e] s1];
      cbn [bind]; [|discriminate].
    intros E. injection E as Hc <-.
    destruct (convert_ok_inv _ _ Hc) as (raws & -> & Hrows).
    exists raws. repeat split; [exact Hrows | exact (rows_length Hrows)].
Qed.

(** X11.  When the reply has a multiple of seven fields, the only way
    [measureStatistics] fails on it is a number that does not read:
    [ValueError] on the MSO-X 3000 driver, [ValueError] or [OverflowError]
    on the UXR driver, never [IndexError]. *)
Theorem measureStatistics_aligned_failure
    (self self' : t) (flat : list string) (e : exn) :
  (List.length flat mod 7 = 0)%nat ->
  (_measureStatistics (shown self) = (Ok flat, self') ->
   MSOX3000.measureStatistics self = (Raise e, self') ->
   is_ValueError e = true)
  /\ (_measureStatistics self = (Ok flat, self') ->
      UXR.measureStatistics self = (Raise e, self') ->
      parse_failure e = true).
Proof.
  intros Hmod. split; intros Hreply.
  - rewrite MSOX_measureStatistics_eq, Hreply. cbn [bind].
    intros E. injection E as Hc.
    exact (@convert_aligned_error MSOX_count is_ValueError
             (fun _ H => H) MSOX_count_raises flat e Hmod Hc).
  - rewrite UXR_measureStatistics_eq, Hreply. cbn [bind].
    intros E. injection E as Hc.
    exact (@convert_aligned_error UXR_count parse_failure
             value_parse_failure UXR_count_raises flat e Hmod Hc).
Qed.

(** X12.  [measureStatistics] stops at the first group that fails: when the
    groups before it convert and the dictionary of a group of seven fields
    raises [e], the call raises [e], whatever follows that group in the
    reply. *)
Theorem measureStatistics_first_failure
    (self self' : t) (raws : list (list string)) (recs : list stat)
    (g rest : list string) (e : exn) :
  List.length g = 7%nat ->
  (_measureStatistics (shown self)
   = (Ok (List.concat raws ++ g ++ rest), self') ->
   Forall2 (row_of MSOX_count) raws recs ->
   MSOX3000.stat_dict g = Raise e ->
   MSOX3000.measureStatistics self = (Raise e, self'))
  /\ (_measureStatistics self
      = (Ok (List.concat raws ++ g ++ rest), self') ->
      Forall2 (row_of UXR_count) raws recs ->
      UXR.stat_dict g = Raise e ->
      UXR.measureStatistics self = (Raise e, self')).
Proof.
  intros Hg. split; intros Hreply Hrows He.
  - rewrite MSOX_measureStatistics_eq, Hreply. cbn [bind].
    now rewrite (@convert_first_failure MSOX_count raws recs g rest e
                   Hrows Hg He).
  - rewrite UXR_measureStatistics_eq, Hreply. cbn [bind].
    rewrite UXR_dict in He.
    now rewrite (@convert_first_failure UXR_count raws recs g rest e
                   Hrows Hg He).
Qed.

(** X13.  [measureStatistics] returns the empty list exactly when the reply
    of the base method is the empty list, on both drivers. *)
Theorem measureStatistics_empty_iff (self self' : t) (flat : list string) :
  (_measureStatistics (shown self) = (Ok flat, self') ->
   (MSOX3000.measureStatistics self = (Ok [], self') <-> flat = []))
  /\ (_measureStatistics self = (Ok flat, self') ->
      (UXR.measureStatistics self = (Ok [], self') <-> flat = [])).
Proof.
  split; intros Hreply.
  - rewrite MSOX_measureStatistics_eq, Hreply. cbn [bind]. split.
    + intros E. injection E as Hc.
      destruct (convert_ok_inv _ _ Hc) as (raws & -> & Hrows).
      now inversion Hrows.
    + intros ->. reflexivity.
  - rewrite UXR_measureStatistics_eq, Hreply. cbn [bind]. split.
    + intros E. injection E as Hc.
      destruct (convert_ok_inv _ _ Hc) as (raws & -> & Hrows).
      now inversion Hrows.
    + intros ->. reflexivity.
Qed.

(** X14.  On the MSO-X 3000 driver a count field must be made of digits,
    underscores, a sign and spaces: when the seventh field of some group
    holds any other character, a decimal point or an exponent letter for
    instance, [measureStatistics] raises and returns no record. *)
Theorem MSOX_count_characters
    (self self' : t) (flat : list string) (k : nat) (s : string) (c : ascii) :
  _measureStatistics (shown self) = (Ok flat, self') ->
  nth_error flat (7 * k + 6) = Some s ->
  In c (list_ascii_of_string s) ->
  int_char c = false ->
  exists e, MSOX3000.measureStatistics self = (Raise e, self').
Proof.
  intros Hreply Hs Hin Hc.
  rewrite MSOX_measureStatistics_eq, Hreply. cbn [bind].
  destruct (convert (dict MSOX_count) flat) as [recs|e] eqn:Hconv;
    [|now exists e].
  exfalso.
  destruct (convert_ok_inv _ _ Hconv) as (raws & -> & Hrows).
  destruct (rows_count_field Hrows k Hs) as [n Hn].
  pose proof (IntFacts.int_of_str_text s c Hn Hin) as Hok.
  congruence.
Qed.

(** X15.  When both drivers return records for the same reply, they return
    the same number of records, and the records agree on the label and on
    the five floats: only the counts can differ. *)
Theorem drivers_agree_but_count
    (self self1 self2 : t) (flat : list string) (recs1 recs2 : list stat) :
  _measureStatistics (shown self) = (Ok flat, self1) ->
  _measureStatistics self = (Ok flat, self2) ->
  MSOX3000.measureStatistics self = (Ok recs1, self1) ->
  UXR.measureStatistics self = (Ok recs2, self2) ->
  Forall2 same_but_count recs1 recs2.
Proof.
  intros Hm Hu.
  rewrite MSOX_measureStatistics_eq, Hm, UXR_measureStatistics_eq, Hu.
  cbn [bind]. intros E1 E2. injection E1 as H1. injection E2 as H2.
  exact (convert_same_but_count _ _ _ H1 H2).
Qed.

End StatisticsExtras.

(** ** Evaluations of the further properties on the bench instrument *)

Section ExtraRuns.

Import Keysight Spec.
Open Scope string_scope.
Open Scope list_scope.

Lemma setupAutoscaleOLD_single_witness :
  MSOX3000.setupAutoscaleOLD (base := Bench.base []) (Atom (AStr "2"))
    Bench.scope
  = (Ok tt,
     wrote ["AUToscale CHAN2"] (set_channel (Atom (AStr "2")) Bench.scope)).
Proof.
  apply (@setupAutoscaleOLD_single (Bench.base []) Bench.scope (AStr "2")).
  - discriminate.
  - reflexivity.
Defined.

Lemma setupAutoscaleOLD_outcome_witness :
  chanAllValidList (set_channel (PyList Bench.six) Bench.scope)
  = chanAllValidList Bench.scope
  /\ is_ValueError (ValueError too_many_msg) = true
  /\ written (set_channel (PyList Bench.six) Bench.scope)
     = written Bench.scope.
Proof.
  exact (@setupAutoscaleOLD_outcome (Bench.base []) Bench.scope
           (set_channel (PyList Bench.six) Bench.scope)
           (PyList Bench.six) (Raise (ValueError too_many_msg)) eq_refl).
Defined.

Lemma setupAutoscaleOLD_message_witness :
  fst (MSOX3000.setupAutoscaleOLD (base := Bench.base [])
         (PyList [AStr "1"; AStr "9"; AStr "7"]) Bench.scope)
  = Raise (ValueError
             "INVALID Channel Value for AUTOSCALE: 9  SKIPPING!").
Proof.
  apply (proj2 (@setupAutoscaleOLD_message (Bench.base []) Bench.scope)
           [AStr "1"] (AStr "9") [AStr "7"]).
  - simpl. lia.
  - repeat constructor.
  - reflexivity.
Defined.

Lemma annotateOLD_commands_witness :
  MSOX3000.annotateOLD MSOX3000.annotateColorOLD
    "Example" (Some "") "TRAN" Bench.scope
  = (Ok tt, wrote (annotation "Example" "TRAN") Bench.scope).
Proof.
  apply (proj1 (@annotateOLD_commands MSOX3000.annotateColorOLD
                  Bench.scope "Example" "TRAN" (Some ""))).
  reflexivity.
Defined.

Lemma polishOLD_nan_and_infinity_witness :
  MSOX3000.polishOLD (base := Bench.base []) (S754_infinity false)
    (Some "Period") Bench.scope
  = (Ok (PStr "------"), Bench.scope).
Proof.
  apply (proj2 (@polishOLD_nan_and_infinity (Bench.base []) Bench.scope
                  (Some "Period"))).
  discriminate.
Defined.

Lemma measureStatistics_ok_inv_witness :
  exists raws,
    Keysight._measureStatistics (Base := Bench.base Bench.vavg_reply)
      (shown Bench.scope)
    = (Ok (List.concat raws), shown Bench.scope)
    /\ Forall2 (row_of MSOX_count) raws [Bench.vavg_record]
    /\ List.length (List.concat raws) = (7 * 1)%nat.
Proof.
  apply (proj1 (@measureStatistics_ok_inv (Bench.base Bench.vavg_reply)
                  Bench.scope (shown Bench.scope) [Bench.vavg_record])).
  vm_compute. reflexivity.
Defined.

Lemma measureStatistics_aligned_failure_witness :
  is_ValueError (ValueError "invalid literal for int() with base 10") = true.
Proof.
  apply (proj1 (@measureStatistics_aligned_failure
                  (Bench.base Bench.float_count_reply)
                  Bench.scope (shown Bench.scope) Bench.float_count_reply
                  (ValueError "invalid literal for int() with base 10")
                  eq_refl)).
  - reflexivity.
  - vm_compute. reflexivity.
Defined.

Lemma measureStatistics_first_failure_witness :
  MSOX3000.measureStatistics (base := Bench.base Bench.bad_second_reply)
    Bench.scope
  = (Raise (ValueError "invalid literal for int() with base 10"),
     shown Bench.scope).
Proof.
  apply (proj1 (@measureStatistics_first_failure
                  (Bench.base Bench.bad_second_reply)
                  Bench.scope (shown Bench.scope)
                  [Bench.vavg_reply] [Bench.vavg_record]
                  ["Vpp"; "1.5"; "1.0"; "1.5"; "1.5"; "0.5"; "7.0"]
                  ["Vrms"]
                  (ValueError "invalid literal for int() with base 10")
                  eq_refl)).
  - reflexivity.
  - constructor; [|constructor]. apply vavg_row. reflexivity.
  - vm_compute. reflexivity.
Defined.

Lemma measureStatistics_empty_iff_witness :
  MSOX3000.measureStatistics (base := Bench.base []) Bench.scope
  = (Ok [], shown Bench.scope)
  <-> @nil string = [].
Proof.
  apply (proj1 (@measureStatistics_empty_iff (Bench.base [])
                  Bench.scope (shown Bench.scope) [])).
  reflexivity.
Defined.

Lemma MSOX_count_characters_witness :
  exists e,
    MSOX3000.measureStatistics (base := Bench.base Bench.float_count_reply)
      Bench.scope
    = (Raise e, shown Bench.scope).
Proof.
  apply (@MSOX_count_characters (Bench.base Bench.float_count_reply)
           Bench.scope (shown Bench.scope) Bench.float_count_reply
           0 "100.0" "."%char).
  - reflexivity.
  - reflexivity.
  - simpl. tauto.
  - reflexivity.
Defined.

Lemma drivers_agree_but_count_witness :
  Forall2 same_but_count
    [mkstat "Vavg" Bench.f1_0 Bench.f0_5 Bench.f1_5 Bench.f1_0
       Bench.f0_01 9007199254740993]
    [mkstat "Vavg" Bench.f1_0 Bench.f0_5 Bench.f1_5 Bench.f1_0
       Bench.f0_01 9007199254740992].
Proof.
  apply (@drivers_agree_but_count (Bench.base Bench.big_count_reply)
           Bench.scope (shown Bench.scope) Bench.scope
           Bench.big_count_reply).
  - reflexivity.
  - reflexivity.
  - vm_compute. reflexivity.
  - vm_compute. reflexivity.
Defined.

End ExtraRuns.

(** ** Counts written as floats *)

Module ScaledFloatFacts.

Import FloatFacts.
Open Scope Z_scope.










End ScaledFloatFacts.

Module FloatTextFacts.

Import Py Spec ParseFacts.
Open Scope list_scope.
Open Scope Z_scope.



















End FloatTextFacts.

Module CountMore.

Import Keysight Spec StatsFacts RowFacts StatsMore StatsMore2.
Open Scope string_scope.
Open Scope list_scope.



End CountMore.

Section CountClaims.

Import Keysight Spec StatsFacts RowFacts StatsMore StatsMore2 CountMore.
Open Scope string_scope.
Open Scope list_scope.

Context {base : Base}.


End CountClaims.

Section CountWitness.

Import Keysight Spec.
Open Scope string_scope.
Open Scope list_scope.



(** The bound on the digits is needed for counts written as floats too:
    ["9007199254740993.0"] denotes [2 ^ 53 + 1], and the UXR driver returns
    9007199254740992. *)
Lemma big_float_count_rounded :
  fst (UXR.measureStatistics
         (base := Bench.base
                    ["Vavg"; "1.0"; "0.5"; "1.5"; "1.0"; "0.01";
                     "9007199254740993.0"])
         Bench.scope)
  = Ok [mkstat "Vavg" Bench.f1_0 Bench.f0_5 Bench.f1_5 Bench.f1_0
          Bench.f0_01 9007199254740992].
Proof. vm_compute. reflexivity. Qed.

End CountWitness.
